(** * open_deep_research: the development identity provider and the
      container smoke test

    Shallow embedding of [src/security/auth.py] and [tests/test_docker.py].

    - [Auth] embeds [get_current_user]: the process environment
      ([os.environ]) is a finite map from names to values and the returned
      dictionary is a finite map as well.
    - [Docker] embeds [run], [wait_for] and [test_docker_container_smoke]
      over an explicit world: the files under the project root, the
      wall clock, and the chronological trace of every interaction with
      the outside (file probes, subprocesses, HTTP requests, sleeps).  What
      the outside answers is an [environment] of oracles. *)

From Stdlib Require Import ZArith Lia.
From stdpp Require Import base option list strings gmap pretty.

Local Open Scope Z_scope.
Local Open Scope string_scope.

(** ** Exceptions and results shared by both files *)

(** The exceptions the two files raise.  What [requests.get] raises is
    caught inside [wait_for] and never leaves it; see [Docker.reply]. *)
Inductive exn : Type :=
| FileNotFoundError (msg : string)
| CalledProcessError (returncode : Z) (cmd : list string)
| TimeoutError (msg : string).

(** The outcome of a call: a returned value or a raised exception. *)
Inductive result (A : Type) : Type :=
| Ok (a : A)
| Raise (e : exn).
Arguments Ok {A} a.
Arguments Raise {A} e.

Definition is_ok {A} (r : result A) : bool :=
  match r with Ok _ => true | Raise _ => false end.

(** ** src/security/auth.py *)
Module Auth.

(** [os.environ.get(key, default)]. *)
Definition environ_get (environ : gmap string string) (key default : string)
  : string :=
  match environ !! key with
  | Some v => v
  | None => default
  end.

(** [get_current_user(authorization)]: the coroutine's body, run to
    completion against the environment of the moment of the call.  The
    dictionary literal has the single key ["identity"]. *)
Definition get_current_user (environ : gmap string string)
    (authorization : option string) : result (gmap string string) :=
  Ok {[ "identity" := environ_get environ "DEV_USER_ID" "dev-user" ]}.

End Auth.

(** ** tests/test_docker.py *)
Module Docker.

Definition IMAGE_TAG : string := "open-deep-research:test".
Definition CONTAINER_NAME : string := "open-deep-research-test".
Definition PORT : Z := 2024.

(** *** The world the test acts on *)

(** One entry per interaction with the outside, in the order made. *)
Inductive event : Type :=
| PathExists (path : string)
| ReadText (path : string)
| WriteText (path : string) (data : string)
| Subprocess (cmd : list string) (check : bool)
| HttpGet (url : string) (timeout : Z)
| Sleep (seconds : Z).

(** [files] maps a path to the text of the file there, [clock] is
    [time.time()] in milliseconds. *)
Record world : Type := World {
  files : gmap string string;
  clock : Z;
  trace : list event
}.

(** What [requests.get] does: a response with its [status_code], or an
    exception, which [wait_for] only ever prints and which is therefore
    kept in its printed form [str(err)]. *)
Inductive reply : Type :=
| Response (status_code : Z)
| Throws (printed : string).

(** The outside's answers.  The [k]-th subprocess of a run exits with a
    return code after some milliseconds, the [k]-th GET gives a reply
    after some milliseconds, and the [k]-th [time.sleep] may oversleep.
    Elapsed times are naturals: the clock never runs backwards. *)
Record environment : Type := Environment {
  process_exit : nat -> list string -> Z * N;
  http_reply : nat -> string -> reply * N;
  oversleep : nat -> N
}.

Definition is_subprocess (ev : event) : bool :=
  match ev with Subprocess _ _ => true | _ => false end.
Definition is_get (ev : event) : bool :=
  match ev with HttpGet _ _ => true | _ => false end.
Definition is_sleep (ev : event) : bool :=
  match ev with Sleep _ => true | _ => false end.

(** How many events of a kind a trace holds. *)
Fixpoint count (p : event -> bool) (tr : list event) : nat :=
  match tr with
  | [] => O
  | ev :: tr' => ((if p ev then 1 else 0) + count p tr')%nat
  end.

Definition log (ev : event) (elapsed : Z) (w : world) : world :=
  {| files := files w; clock := clock w + elapsed; trace := trace w ++ [ev] |}.

(** *** Computations: state, exceptions, and fuel for the one loop

    [None] is reserved for a loop that was cut off by its fuel; every
    other computation gives [Some]. *)
Definition M (A : Type) : Type := world -> option (result A * world).

#[global] Instance M_ret : MRet M := fun A a w => Some (Ok a, w).

#[global] Instance M_bind : MBind M := fun A B k m w =>
  match m w with
  | None => None
  | Some (Ok a, w') => k a w'
  | Some (Raise e, w') => Some (Raise e, w')
  end.

Definition raise {A} (e : exn) : M A := fun w => Some (Raise e, w).

(** [try: body finally: handler].  The handler runs after the body
    whether it returned or raised; an exception of the handler replaces
    the body's outcome. *)
Definition try_finally {A} (body : M A) (handler : M unit) : M A := fun w =>
  match body w with
  | None => None
  | Some (r, w') =>
      match handler w' with
      | None => None
      | Some (Ok _, w'') => Some (r, w'')
      | Some (Raise e, w'') => Some (Raise e, w'')
      end
  end.

Section WithEnvironment.
Variable env : environment.

(** [Path.exists()]. *)
Definition path_exists (path : string) : M bool := fun w =>
  Some (Ok (bool_decide (is_Some (files w !! path))), log (PathExists path) 0 w).

(** [Path.read_text()]. *)
Definition read_text (path : string) : M string := fun w =>
  match files w !! path with
  | Some data => Some (Ok data, log (ReadText path) 0 w)
  | None =>
      Some (Raise (FileNotFoundError
                     ("[Errno 2] No such file or directory: '" ++ path ++ "'")),
            log (ReadText path) 0 w)
  end.

(** [Path.write_text(data, encoding="utf-8")]; the count it returns is
    dropped by the caller. *)
Definition write_text (path data : string) : M unit := fun w =>
  Some (Ok tt,
        {| files := <[path := data]> (files w);
           clock := clock w;
           trace := trace w ++ [WriteText path data] |}).

(** [subprocess.run(cmd, check=check)]: waits for the process, and with
    [check] raises on a non-zero return code.  The executable is taken to
    be there: a [docker] that cannot be launched at all is not modelled. *)
Definition subprocess_run (cmd : list string) (check : bool) : M Z := fun w =>
  let '(returncode, elapsed) := process_exit env (count is_subprocess (trace w)) cmd in
  let w' := log (Subprocess cmd check) (Z.of_N elapsed) w in
  if check && negb (Z.eqb returncode 0)
  then Some (Raise (CalledProcessError returncode cmd), w')
  else Some (Ok returncode, w').

(** [requests.get(url, timeout=timeout)], its exception made a value. *)
Definition requests_get (url : string) (timeout : Z) (w : world) : reply * world :=
  let '(r, elapsed) := http_reply env (count is_get (trace w)) url in
  (r, log (HttpGet url timeout) (Z.of_N elapsed) w).

(** [time.sleep(seconds)]: at least the time asked for. *)
Definition time_sleep (seconds : Z) (w : world) : world :=
  log (Sleep seconds)
      (1000 * seconds + Z.of_N (oversleep env (count is_sleep (trace w)))) w.

(** [def run(cmd)]. *)
Definition run (cmd : list string) : M unit :=
  _ ← subprocess_run cmd true; mret tt.

(** The f-string of the [TimeoutError]; [None] prints as [None]. *)
Definition timeout_message (url : string) (last_err : option string) : string :=
  "Timed out waiting for " ++ url ++ ". Last error: " ++ default "None" last_err.

(** The [while] loop of [wait_for], from the test of its condition on.
    [fuel] bounds the number of passes through the body. *)
Fixpoint wait_loop (fuel : nat) (url : string) (deadline : Z)
    (last_err : option string) (w : world) : option (result unit * world) :=
  if bool_decide (clock w < deadline) then
    match fuel with
    | O => None
    | S fuel' =>
        match requests_get url 5 w with
        | (Response status_code, w1) =>
            if bool_decide (status_code < 500)
            then Some (Ok tt, w1)
            else wait_loop fuel' url deadline last_err (time_sleep 2 w1)
        | (Throws err, w1) =>
            wait_loop fuel' url deadline (Some err) (time_sleep 2 w1)
        end
    end
  else Some (Raise (TimeoutError (timeout_message url last_err)), w).

(** [def wait_for(url, timeout_seconds)]. *)
Definition wait_for (fuel : nat) (url : string) (timeout_seconds : Z) : M unit :=
  fun w =>
    let deadline := clock w + 1000 * timeout_seconds in
    wait_loop fuel url deadline None w.

Section WithProjectRoot.
(** [str(project_root)], the parent of the directory of the test. *)
Variable project_root : string.

Definition env_file : string := project_root ++ "/.env".
Definition template : string := project_root ++ "/env.example".

Definition build_cmd : list string :=
  ["docker"; "build"; "-t"; IMAGE_TAG; project_root].
Definition rm_cmd : list string :=
  ["docker"; "rm"; "-f"; CONTAINER_NAME].
Definition run_cmd : list string :=
  ["docker"; "run"; "--name"; CONTAINER_NAME; "--env-file"; env_file;
   "-p"; pretty PORT ++ ":" ++ pretty PORT; IMAGE_TAG].
Definition rmi_cmd : list string :=
  ["docker"; "rmi"; IMAGE_TAG].

Definition health_url : string :=
  "http://localhost:" ++ pretty PORT ++ "/health".
Definition docs_url : string :=
  "http://localhost:" ++ pretty PORT ++ "/docs".

(** Lines 36-41, [# Ensure env file exists]. *)
Definition ensure_env_file : M unit :=
  present ← path_exists env_file;
  if present : bool then mret tt
  else
    has_template ← path_exists template;
    if has_template : bool then
      data ← read_text template;
      write_text env_file data
    else
      raise (FileNotFoundError "env.example missing; cannot create .env for test").

(** The body of the [try]. *)
Definition poll_endpoints (fuel : nat) : M unit :=
  wait_for fuel health_url 90;;
  wait_for fuel docs_url 30.

(** The body of the [finally]. *)
Definition teardown : M unit :=
  subprocess_run rm_cmd false;;
  subprocess_run rmi_cmd false;;
  mret tt.

(** [def test_docker_container_smoke()]. *)
Definition test_docker_container_smoke (fuel : nat) : M unit :=
  ensure_env_file;;
  run build_cmd;;
  subprocess_run rm_cmd false;;
  run run_cmd;;
  try_finally (poll_endpoints fuel) teardown.

End WithProjectRoot.
End WithEnvironment.

End Docker.

(** ** Vocabulary of the statements *)
Module Observe.
Import Docker.

(** One unsuccessful pass of the polling loop, as it shows in the trace. *)
Definition round (url : string) : list event := [HttpGet url 5; Sleep 2].

Fixpoint rounds (n : nat) (url : string) : list event :=
  match n with
  | O => []
  | S n' => round url ++ rounds n' url
  end.

(** A reply after which [wait_for] goes on polling. *)
Definition is_failure (r : reply) : Prop :=
  match r with
  | Response status_code => 500 <= status_code
  | Throws _ => True
  end.

(** The replies to the [n] GETs that follow the first [g] ones. *)
Definition replies (env : environment) (url : string) (g n : nat) : list reply :=
  map (fun k => (http_reply env (g + k) url).1) (seq 0 n).

(** What [last_err] holds after a reply. *)
Definition remember (last_err : option string) (r : reply) : option string :=
  match r with
  | Response _ => last_err
  | Throws err => Some err
  end.

(** The exception raised most recently among some replies. *)
Definition last_raised (rs : list reply) : option string :=
  fold_left remember rs None.

(** A transient probe error in the specification's sense: a failure to
    get a response, or a response without success. *)
Inductive transient : Type :=
| ProbeException (printed : string)
| BadStatus (status_code : Z).

Definition transient_of (r : reply) : option transient :=
  match r with
  | Throws err => Some (ProbeException err)
  | Response status_code =>
      if bool_decide (status_code < 500) then None else Some (BadStatus status_code)
  end.

(** The most recent transient probe error among some replies. *)
Definition last_transient (rs : list reply) : option transient :=
  last (omap transient_of rs).

(** The timeout error carries the most recent transient probe error,
    of either kind. *)
Definition carries_last_transient (url : string) (rs : list reply) (e : exn) : Prop :=
  exists last_err : option string,
    e = TimeoutError (timeout_message url last_err) /\
    ProbeException <$> last_err = last_transient rs.

(** The clock at the start of the [n]-th pass of a polling loop that
    begins at [c] after [g] GETs and [s] sleeps, all earlier passes having
    failed. *)
Fixpoint attempt_clock (env : environment) (url : string) (g s : nat) (c : Z)
    (n : nat) : Z :=
  match n with
  | O => c
  | S n' =>
      attempt_clock env url (S g) (S s)
        (c + Z.of_N (http_reply env g url).2 + (1000 * 2 + Z.of_N (oversleep env s))) n'
  end.

(** The events of a polling loop. *)
Definition is_poll (ev : event) : bool := is_get ev || is_sleep ev.

(** The events that read or write a file's contents. *)
Definition is_file_access (ev : event) : bool :=
  match ev with ReadText _ | WriteText _ _ => true | _ => false end.

(** The event is the subprocess [cmd]. *)
Definition issues (cmd : list string) (ev : event) : bool :=
  match ev with
  | Subprocess cmd' _ => bool_decide (cmd' = cmd)
  | _ => false
  end.

(** The world after an unsuccessful pass of the polling loop. *)
Definition next_pass (env : environment) (url : string) (w : world) : world :=
  time_sleep env 2 (requests_get env url 5 w).2.

(** What a call of [wait_for] leaves in the trace: [n] failed passes and,
    if it returned, the request that was answered. *)
Definition polled (url : string) (n : nat) (r : result unit) : list event :=
  rounds n url ++ (if is_ok r then [HttpGet url 5] else []).

(** The world after the subprocess [cmd]. *)
Definition after_process (env : environment) (cmd : list string) (check : bool)
    (w : world) : world :=
  log (Subprocess cmd check)
      (Z.of_N (process_exit env (count is_subprocess (trace w)) cmd).2) w.

(** [w'] comes from [w] by events that all satisfy [Q], the files being
    the same. *)
Definition extends (Q : event -> Prop) (w w' : world) : Prop :=
  files w' = files w /\
  exists new : list event, trace w' = (trace w ++ new)%list /\ Forall Q new.

(** Every outcome of [m] extends the world it started from. *)
Definition framed {A} (Q : event -> Prop) (m : M A) : Prop :=
  forall w r w', m w = Some (r, w') -> extends Q w w'.

(** The teardown was attempted exactly once in [tr], at its end:
    [docker rm -f] of the container, then the one [docker rmi] of the
    image. *)
Definition teardown_attempted_once (tr : list event) : Prop :=
  count (issues rmi_cmd) tr = 1%nat /\
  exists before : list event,
    tr = (before ++ [Subprocess rm_cmd false; Subprocess rmi_cmd false])%list.

(** An argument that makes [docker run] detach the container. *)
Definition is_detach_flag (arg : string) : bool :=
  String.eqb arg "-d" || String.eqb arg "--detach".

(** [env'] differs from [env] at most in the return codes of the
    subprocesses other than the [k]-th and the one two after it. *)
Definition same_but_unchecked_codes (env env' : environment) (k : nat) : Prop :=
  (forall j cmd, (process_exit env j cmd).2 = (process_exit env' j cmd).2) /\
  (forall cmd, (process_exit env k cmd).1 = (process_exit env' k cmd).1) /\
  (forall cmd, (process_exit env (k + 2) cmd).1 = (process_exit env' (k + 2) cmd).1) /\
  (forall j url, http_reply env j url = http_reply env' j url) /\
  (forall j, oversleep env j = oversleep env' j).

(** The most polls a deadline of [timeout_seconds] leaves room for. *)
Definition max_attempts (timeout_seconds : Z) : nat :=
  Z.to_nat ((timeout_seconds + 1) / 2).

End Observe.

(** ** Sample environments and worlds *)
Module Samples.
Import Docker.

Definition repo : string := "/repo".

(** A checkout with both files, with the template only, with neither. *)
Definition configured : world :=
  World {[ "/repo/.env" := "KEY=local"; "/repo/env.example" := "KEY=" ]} 0 [].
Definition fresh : world :=
  World {[ "/repo/env.example" := "KEY=" ]} 0 [].
Definition bare : world := World ∅ 0 [].

(** Every process exits with 0; the service refuses two connections and
    answers 200 from the third request on. *)
Definition up_on_third : environment := {|
  process_exit := fun _ _ => (0, 1500%N);
  http_reply := fun k _ =>
    (if decide (k < 2)%nat then Throws "Connection refused" else Response 200, 10%N);
  oversleep := fun _ => 1%N
|}.

(** The service never accepts a connection. *)
Definition unreachable : environment := {|
  process_exit := fun _ _ => (0, 1500%N);
  http_reply := fun k _ => (Throws ("Connection refused #" ++ pretty k), 10%N);
  oversleep := fun _ => 0%N
|}.

(** The service refuses the first connection and answers 503 after. *)
Definition unhealthy : environment := {|
  process_exit := fun _ _ => (0, 1500%N);
  http_reply := fun k _ =>
    (if decide (k < 1)%nat then Throws "Connection refused" else Response 503, 10%N);
  oversleep := fun _ => 0%N
|}.

(** The image builds, no container is left over, and [docker run] exits
    with 125. *)
Definition start_fails : environment := {|
  process_exit := fun k _ =>
    (match k with 0%nat => 0 | 1%nat => 1 | _ => 125 end, 1500%N);
  http_reply := fun _ _ => (Response 200, 10%N);
  oversleep := fun _ => 0%N
|}.

(** As [up_on_third], but the pre-clean and both teardown commands exit
    with 1. *)
Definition cleanup_fails : environment := {|
  process_exit := fun k _ =>
    (match k with 0%nat | 2%nat => 0 | _ => 1 end, 1500%N);
  http_reply := http_reply up_on_third;
  oversleep := oversleep up_on_third
|}.

(** [docker build] exits with 2. *)
Definition build_fails : environment := {|
  process_exit := fun _ _ => (2, 1500%N);
  http_reply := fun _ _ => (Response 200, 10%N);
  oversleep := fun _ => 0%N
|}.

(** The service answers every request with 503. *)
Definition always_503 : environment := {|
  process_exit := fun _ _ => (0, 1500%N);
  http_reply := fun _ _ => (Response 503, 10%N);
  oversleep := fun _ => 0%N
|}.

End Samples.

(** * Properties *)

Local Open Scope list_scope.

(** ** The identity provider *)

Section AuthProperties.
Import Auth.

Lemma environ_get_unset (environ : gmap string string) key fallback :
  environ !! key = None -> environ_get environ key fallback = fallback.
Proof. intros H. unfold environ_get. now rewrite H. Qed.

Lemma environ_get_set (environ : gmap string string) key fallback v :
  environ !! key = Some v -> environ_get environ key fallback = v.
Proof. intros H. unfold environ_get. now rewrite H. Qed.

(** The two scenarios the specification lists. *)
Example authenticate_unset :
  get_current_user ∅ None = Ok {[ "identity" := "dev-user" ]}.
Proof. reflexivity. Qed.

Example authenticate_alice :
  get_current_user {[ "DEV_USER_ID" := "alice" ]} (Some "Bearer xyz")
  = Ok {[ "identity" := "alice" ]}.
Proof. vm_compute. reflexivity. Qed.

(** C1: whatever the process environment holds and whatever credential is
    passed (none, empty, malformed), [get_current_user] returns exactly
    the one-field record [{"identity": v}], where [v] is the value of
    [DEV_USER_ID] at the call, or ["dev-user"] when it is unset. *)
Theorem get_current_user_identity (environ : gmap string string)
    (authorization : option string) :
  exists v : string,
    get_current_user environ authorization = Ok {[ "identity" := v ]} /\
    match environ !! "DEV_USER_ID" with
    | Some value => v = value
    | None => v = "dev-user"
    end.
Proof.
  exists (environ_get environ "DEV_USER_ID" "dev-user"). split.
  - reflexivity.
  - destruct (environ !! "DEV_USER_ID") as [value|] eqn:E.
    + now apply environ_get_set.
    + now apply environ_get_unset.
Qed.

(** C8: [get_current_user] never raises: for every credential and every
    environment its outcome is a returned identity record, never an
    exception. *)
Theorem get_current_user_never_raises (environ : gmap string string)
    (authorization : option string) :
  is_ok (get_current_user environ authorization) = true /\
  (forall e : exn, get_current_user environ authorization <> Raise e) /\
  exists record : gmap string string,
    get_current_user environ authorization = Ok record /\
    is_Some (record !! "identity").
Proof.
  split; [reflexivity|]. split; [intros e; discriminate|].
  eexists. split; [reflexivity|].
  rewrite lookup_singleton_eq. eauto.
Qed.

End AuthProperties.

(** ** The polling loop *)

Section Polling.
Import Docker Observe.
Variable env : environment.

Lemma count_app p (tr1 tr2 : list event) :
  count p (tr1 ++ tr2) = (count p tr1 + count p tr2)%nat.
Proof. induction tr1 as [|ev tr1 IH]; simpl; [reflexivity|]. rewrite IH. lia. Qed.

Lemma count_none p (tr : list event) :
  Forall (fun ev => p ev = false) tr -> count p tr = O.
Proof. induction 1 as [|ev tr Hev _ IH]; simpl; [reflexivity|]. now rewrite Hev, IH. Qed.

Lemma rounds_poll n url : Forall (fun ev => is_poll ev = true) (rounds n url).
Proof. induction n; simpl; repeat constructor; assumption. Qed.

Lemma count_gets_rounds n url : count is_get (rounds n url) = n.
Proof. induction n; simpl; congruence. Qed.

Lemma count_sleeps_rounds n url : count is_sleep (rounds n url) = n.
Proof. induction n; simpl; congruence. Qed.

Lemma replies_S url g n :
  replies env url g (S n) = (http_reply env g url).1 :: replies env url (S g) n.
Proof.
  unfold replies. simpl. rewrite Nat.add_0_r. f_equal.
  rewrite <- seq_shift, map_map. apply map_ext. intros k.
  now rewrite Nat.add_succ_r.
Qed.

Lemma requests_get_eq url timeout w :
  requests_get env url timeout w =
  ((http_reply env (count is_get (trace w)) url).1,
   log (HttpGet url timeout) (Z.of_N (http_reply env (count is_get (trace w)) url).2) w).
Proof. unfold requests_get. now destruct (http_reply env _ url). Qed.

Lemma next_pass_trace url w : trace (next_pass env url w) = trace w ++ round url.
Proof.
  unfold next_pass. rewrite requests_get_eq. simpl. now rewrite <- app_assoc.
Qed.

Lemma next_pass_files url w : files (next_pass env url w) = files w.
Proof. unfold next_pass. now rewrite requests_get_eq. Qed.

Lemma next_pass_clock url w :
  clock (next_pass env url w) =
  clock w + Z.of_N (http_reply env (count is_get (trace w)) url).2
  + (1000 * 2 + Z.of_N (oversleep env (count is_sleep (trace w)))).
Proof.
  unfold next_pass. rewrite requests_get_eq. simpl.
  rewrite count_app. simpl. now rewrite Nat.add_0_r.
Qed.

Lemma next_pass_later url w : clock w + 2000 <= clock (next_pass env url w).
Proof. rewrite next_pass_clock. lia. Qed.

Lemma next_pass_gets url w :
  count is_get (trace (next_pass env url w)) = S (count is_get (trace w)).
Proof. rewrite next_pass_trace, count_app. simpl. lia. Qed.

Lemma next_pass_sleeps url w :
  count is_sleep (trace (next_pass env url w)) = S (count is_sleep (trace w)).
Proof. rewrite next_pass_trace, count_app. simpl. lia. Qed.

(** The loop, one pass at a time. *)
Lemma wait_loop_expired fuel url deadline last_err w :
  deadline <= clock w ->
  wait_loop env fuel url deadline last_err w =
  Some (Raise (TimeoutError (timeout_message url last_err)), w).
Proof.
  intros H. destruct fuel; simpl; rewrite bool_decide_eq_false_2 by lia; reflexivity.
Qed.

Lemma wait_loop_success fuel url deadline last_err w status_code :
  clock w < deadline ->
  (http_reply env (count is_get (trace w)) url).1 = Response status_code ->
  status_code < 500 ->
  wait_loop env (S fuel) url deadline last_err w =
  Some (Ok tt, (requests_get env url 5 w).2).
Proof.
  intros Hc Hr Hs. simpl. rewrite bool_decide_eq_true_2 by assumption.
  rewrite requests_get_eq, Hr. simpl.
  now rewrite bool_decide_eq_true_2 by assumption.
Qed.

Lemma wait_loop_retry fuel url deadline last_err w :
  clock w < deadline ->
  is_failure (http_reply env (count is_get (trace w)) url).1 ->
  wait_loop env (S fuel) url deadline last_err w =
  wait_loop env fuel url deadline
    (remember last_err (http_reply env (count is_get (trace w)) url).1)
    (next_pass env url w).
Proof.
  intros Hc Hf. unfold next_pass. simpl wait_loop.
  rewrite bool_decide_eq_true_2 by assumption.
  rewrite requests_get_eq in *. simpl in *.
  destruct (http_reply env (count is_get (trace w)) url).1 as [sc|err]; simpl in *.
  - now rewrite bool_decide_eq_false_2 by lia.
  - reflexivity.
Qed.

Lemma reply_cases (r : reply) :
  (exists status_code, r = Response status_code /\ status_code < 500) \/ is_failure r.
Proof.
  destruct r as [sc|err]; simpl; [|now right].
  destruct (decide (sc < 500)); [left; eauto | right; lia].
Qed.

Lemma attempt_clock_later url n : forall g s c,
  c + 2000 * Z.of_nat n <= attempt_clock env url g s c n.
Proof.
  induction n as [|n IH]; intros g s c; simpl attempt_clock; [lia|].
  specialize (IH (S g) (S s)
    (c + Z.of_N (http_reply env g url).2 + (1000 * 2 + Z.of_N (oversleep env s)))).
  lia.
Qed.

(** More fuel never changes an outcome. *)
Lemma wait_loop_more_fuel fuel : forall fuel' url deadline last_err w out,
  wait_loop env fuel url deadline last_err w = Some out ->
  (fuel <= fuel')%nat ->
  wait_loop env fuel' url deadline last_err w = Some out.
Proof.
  induction fuel as [|fuel IH]; intros fuel' url deadline last_err w out H Hle.
  - destruct (decide (clock w < deadline)) as [Hc|Hc].
    + simpl in H. rewrite bool_decide_eq_true_2 in H by assumption. discriminate.
    + rewrite wait_loop_expired in H by lia. now rewrite wait_loop_expired by lia.
  - destruct fuel' as [|fuel']; [lia|].
    destruct (decide (clock w < deadline)) as [Hc|Hc].
    + destruct (reply_cases (http_reply env (count is_get (trace w)) url).1)
        as [(sc & Hr & Hs)|Hf].
      * rewrite (wait_loop_success _ _ _ _ _ sc) in H by assumption.
        now rewrite (wait_loop_success _ _ _ _ _ sc) by assumption.
      * rewrite wait_loop_retry in H by assumption.
        rewrite wait_loop_retry by assumption. apply IH; [assumption|lia].
    + rewrite wait_loop_expired in H by lia. now rewrite wait_loop_expired by lia.
Qed.

(** The loop comes to an end within the passes its deadline leaves room
    for. *)
Lemma wait_loop_total fuel : forall url deadline last_err w,
  deadline - clock w <= 2000 * Z.of_nat fuel ->
  exists r w', wait_loop env fuel url deadline last_err w = Some (r, w').
Proof.
  induction fuel as [|fuel IH]; intros url deadline last_err w Hfuel.
  - rewrite wait_loop_expired by lia. eauto.
  - destruct (decide (clock w < deadline)) as [Hc|Hc].
    + destruct (reply_cases (http_reply env (count is_get (trace w)) url).1)
        as [(sc & Hr & Hs)|Hf].
      * rewrite (wait_loop_success _ _ _ _ _ sc) by assumption. eauto.
      * rewrite wait_loop_retry by assumption. apply IH.
        pose proof (next_pass_later url w). lia.
    + rewrite wait_loop_expired by lia. eauto.
Qed.

(** What an outcome of the loop says about the passes made: [n] failed
    passes, then either a response below 500 or the deadline. *)
Lemma wait_loop_spec fuel : forall url deadline last_err w r w',
  wait_loop env fuel url deadline last_err w = Some (r, w') ->
  exists n : nat,
    Forall is_failure (replies env url (count is_get (trace w)) n) /\
    files w' = files w /\
    match r with
    | Ok _ =>
        trace w' = trace w ++ rounds n url ++ [HttpGet url 5] /\
        clock w + 2000 * Z.of_nat n < deadline /\
        exists status_code,
          (http_reply env (count is_get (trace w) + n) url).1 = Response status_code /\
          status_code < 500
    | Raise e =>
        trace w' = trace w ++ rounds n url /\
        (n = O \/ clock w + 2000 * (Z.of_nat n - 1) < deadline) /\
        deadline <= clock w' /\
        e = TimeoutError (timeout_message url
              (fold_left remember (replies env url (count is_get (trace w)) n) last_err))
    end.
Proof.
  induction fuel as [|fuel IH]; intros url deadline last_err w r w' H.
  - destruct (decide (clock w < deadline)) as [Hc|Hc].
    + simpl in H. rewrite bool_decide_eq_true_2 in H by assumption. discriminate.
    + rewrite wait_loop_expired in H by lia. injection H as <- <-.
      exists O. simpl. rewrite app_nil_r. repeat split; auto. lia.
  - destruct (decide (clock w < deadline)) as [Hc|Hc].
    + destruct (reply_cases (http_reply env (count is_get (trace w)) url).1)
        as [(sc & Hr & Hs)|Hf].
      * rewrite (wait_loop_success _ _ _ _ _ sc) in H by assumption.
        injection H as <- <-. exists O. rewrite requests_get_eq. simpl.
        rewrite Nat.add_0_r. repeat split; auto. lia. eauto.
      * rewrite wait_loop_retry in H by assumption.
        apply IH in H. destruct H as (n & Hfail & Hfiles & Hr).
        rewrite next_pass_gets, next_pass_trace in *.
        pose proof (next_pass_later url w) as Hlater.
        exists (S n). rewrite replies_S. split; [now constructor|].
        split; [now rewrite Hfiles, next_pass_files|].
        destruct r as [[]|e].
        -- destruct Hr as (Htr & Hclock & sc & Hsc & Hlt).
           split; [simpl; now rewrite Htr, <- !app_assoc|].
           split; [lia|]. exists sc. now rewrite Nat.add_succ_r.
        -- destruct Hr as (Htr & Hclock & Hdl & ->).
           split; [simpl; now rewrite Htr, <- !app_assoc|].
           split; [right; lia|]. split; [assumption|reflexivity].
    + rewrite wait_loop_expired in H by lia. injection H as <- <-.
      exists O. simpl. rewrite app_nil_r. repeat split; auto. lia.
Qed.

(** [n] failed passes, each begun before the deadline, then a response
    below 500: the loop returns at once. *)
Lemma wait_loop_first_success url deadline n : forall fuel last_err w status_code,
  (n < fuel)%nat ->
  Forall is_failure (replies env url (count is_get (trace w)) n) ->
  (http_reply env (count is_get (trace w) + n) url).1 = Response status_code ->
  status_code < 500 ->
  attempt_clock env url (count is_get (trace w)) (count is_sleep (trace w)) (clock w) n
    < deadline ->
  exists w',
    wait_loop env fuel url deadline last_err w = Some (Ok tt, w') /\
    trace w' = trace w ++ rounds n url ++ [HttpGet url 5] /\
    files w' = files w.
Proof.
  induction n as [|n IH]; intros fuel last_err w sc Hfuel Hfail Hr Hs Hclock;
    (destruct fuel as [|fuel]; [lia|]).
  - simpl in Hclock. rewrite Nat.add_0_r in Hr.
    rewrite (wait_loop_success _ _ _ _ _ sc) by assumption.
    eexists. split; [reflexivity|]. now rewrite requests_get_eq.
  - rewrite replies_S in Hfail. apply Forall_cons in Hfail as [Hf Hfail].
    simpl in Hclock.
    pose proof (attempt_clock_later url n (S (count is_get (trace w)))
                  (S (count is_sleep (trace w)))
                  (clock w + Z.of_N (http_reply env (count is_get (trace w)) url).2
                   + (1000 * 2 + Z.of_N (oversleep env (count is_sleep (trace w))))))
      as Hlater.
    rewrite wait_loop_retry by (assumption || lia).
    destruct (IH fuel (remember last_err (http_reply env (count is_get (trace w)) url).1)
                (next_pass env url w) sc) as (w' & Hrun & Htr & Hfiles).
    + lia.
    + now rewrite next_pass_gets.
    + now rewrite next_pass_gets, Nat.add_succ_l, <- Nat.add_succ_r.
    + assumption.
    + now rewrite next_pass_gets, next_pass_sleeps, next_pass_clock.
    + exists w'. split; [assumption|].
      rewrite next_pass_trace in Htr. rewrite next_pass_files in Hfiles.
      split; [simpl; now rewrite Htr, <- !app_assoc | assumption].
Qed.

Lemma wait_for_eq fuel url timeout_seconds w :
  wait_for env fuel url timeout_seconds w =
  wait_loop env fuel url (clock w + 1000 * timeout_seconds) None w.
Proof. reflexivity. Qed.

Lemma max_attempts_enough timeout_seconds fuel :
  (max_attempts timeout_seconds <= fuel)%nat ->
  1000 * timeout_seconds <= 2000 * Z.of_nat fuel.
Proof.
  unfold max_attempts. intros H.
  pose proof (Z.div_mod (timeout_seconds + 1) 2 ltac:(lia)) as Hdiv.
  pose proof (Z.mod_pos_bound (timeout_seconds + 1) 2 ltac:(lia)) as Hmod.
  lia.
Qed.

Lemma max_attempts_bound timeout_seconds (n : nat) :
  2000 * (Z.of_nat n - 1) < 1000 * timeout_seconds ->
  (n <= max_attempts timeout_seconds)%nat.
Proof.
  unfold max_attempts. intros H.
  pose proof (Z.div_mod (timeout_seconds + 1) 2 ltac:(lia)) as Hdiv.
  pose proof (Z.mod_pos_bound (timeout_seconds + 1) 2 ltac:(lia)) as Hmod.
  lia.
Qed.

Lemma fold_remember_throws errs : forall last_err,
  fold_left remember (map Throws errs) last_err =
  match last errs with Some err => Some err | None => last_err end.
Proof.
  induction errs as [|err errs IH]; intros last_err; [reflexivity|].
  simpl fold_left. rewrite IH, last_cons. now destruct (last errs).
Qed.

Lemma last_raised_throws errs : last_raised (map Throws errs) = last errs.
Proof. unfold last_raised. rewrite fold_remember_throws. now destruct (last errs). Qed.

(** [wait_for] touches no file and leaves nothing but polling events. *)
Lemma wait_for_frame fuel url timeout_seconds w r w' :
  wait_for env fuel url timeout_seconds w = Some (r, w') ->
  files w' = files w /\
  exists polling, trace w' = trace w ++ polling /\
                  Forall (fun ev => is_poll ev = true) polling.
Proof.
  rewrite wait_for_eq. intros H. apply wait_loop_spec in H.
  destruct H as (n & _ & Hfiles & Hr). split; [assumption|].
  destruct r as [[]|e].
  - destruct Hr as (-> & _). eexists. split; [reflexivity|].
    apply Forall_app. split; [apply rounds_poll | repeat constructor].
  - destruct Hr as (-> & _). eexists. split; [reflexivity|]. apply rounds_poll.
Qed.

(** With room for [max_attempts] passes, [wait_for] gives an outcome. *)
Lemma wait_for_total fuel url timeout_seconds w :
  (max_attempts timeout_seconds <= fuel)%nat ->
  exists r w', wait_for env fuel url timeout_seconds w = Some (r, w').
Proof.
  intros H. rewrite wait_for_eq. apply wait_loop_total.
  apply max_attempts_enough in H. lia.
Qed.

(** The passes of the loop against the clock: the first [n] replies are
    failures, each of these passes began before the deadline, and the loop
    ended either on the reply after them, a response below 500 to a request
    begun before the deadline, or on the deadline, found passed at the
    start of pass [n]. *)
Lemma wait_loop_passes fuel : forall url deadline last_err w r w',
  wait_loop env fuel url deadline last_err w = Some (r, w') ->
  exists n : nat,
    Forall is_failure (replies env url (count is_get (trace w)) n) /\
    (forall k : nat, (k < n)%nat ->
       attempt_clock env url (count is_get (trace w)) (count is_sleep (trace w))
         (clock w) k < deadline) /\
    match r with
    | Ok _ =>
        trace w' = trace w ++ rounds n url ++ [HttpGet url 5] /\
        attempt_clock env url (count is_get (trace w)) (count is_sleep (trace w))
          (clock w) n < deadline /\
        exists status_code,
          (http_reply env (count is_get (trace w) + n) url).1 = Response status_code /\
          status_code < 500
    | Raise e =>
        trace w' = trace w ++ rounds n url /\
        clock w' = attempt_clock env url (count is_get (trace w))
                     (count is_sleep (trace w)) (clock w) n /\
        deadline <= clock w' /\
        e = TimeoutError (timeout_message url
              (fold_left remember (replies env url (count is_get (trace w)) n) last_err))
    end.
Proof.
  induction fuel as [|fuel IH]; intros url deadline last_err w r w' H.
  - destruct (decide (clock w < deadline)) as [Hc|Hc].
    + simpl in H. rewrite bool_decide_eq_true_2 in H by assumption. discriminate.
    + rewrite wait_loop_expired in H by lia. injection H as <- <-.
      exists O. simpl. rewrite app_nil_r.
      split; [constructor|]. split; [intros k Hk; lia|].
      repeat split; auto. lia.
  - destruct (decide (clock w < deadline)) as [Hc|Hc].
    + destruct (reply_cases (http_reply env (count is_get (trace w)) url).1)
        as [(sc & Hr & Hs)|Hf].
      * rewrite (wait_loop_success _ _ _ _ _ sc) in H by assumption.
        injection H as <- <-. exists O. rewrite requests_get_eq. simpl.
        rewrite Nat.add_0_r.
        split; [constructor|]. split; [intros k Hk; lia|].
        split; [reflexivity|]. split; [assumption|]. eauto.
      * rewrite wait_loop_retry in H by assumption.
        apply IH in H. destruct H as (n & Hfail & Hbefore & Hr).
        rewrite next_pass_gets, next_pass_sleeps, next_pass_clock, next_pass_trace in *.
        exists (S n). rewrite replies_S. split; [now constructor|].
        split.
        { intros [|k] Hk; simpl; [assumption|]. apply Hbefore. lia. }
        destruct r as [[]|e].
        -- destruct Hr as (Htr & Hclock & sc & Hsc & Hlt).
           split; [simpl; now rewrite Htr, <- !app_assoc|].
           split; [exact Hclock|]. exists sc. now rewrite Nat.add_succ_r.
        -- destruct Hr as (Htr & Hclock & Hdl & ->).
           split; [simpl; now rewrite Htr, <- !app_assoc|].
           split; [exact Hclock|]. split; [assumption|reflexivity].
    + rewrite wait_loop_expired in H by lia. injection H as <- <-.
      exists O. simpl. rewrite app_nil_r.
      split; [constructor|]. split; [intros k Hk; lia|].
      repeat split; auto. lia.
Qed.

(** C4 (as amended): a probe that raises, or that answers with a status
    of 500 or more, never ends the polling: while the deadline has not
    passed, each such pass is followed by a 2-second sleep and another
    pass, and the polling ends only on a response below 500 to a request
    begun before the deadline, or on the deadline itself.  Of the failures
    only the exception raised most recently is kept; a response with a bad
    status leaves it as it was.  When the deadline has passed, [wait_for]
    raises a [TimeoutError] whose message ends with the text of that
    exception, or with [None] if no probe raised; after a window of
    connection errors only, it is the text of the last one. *)
Theorem wait_for_reports_last_raised fuel url timeout_seconds w :
  (max_attempts timeout_seconds <= fuel)%nat ->
  exists r w' (n : nat),
    wait_for env fuel url timeout_seconds w = Some (r, w') /\
    Forall is_failure (replies env url (count is_get (trace w)) n) /\
    (forall k : nat, (k < n)%nat ->
       attempt_clock env url (count is_get (trace w)) (count is_sleep (trace w))
         (clock w) k < clock w + 1000 * timeout_seconds) /\
    match r with
    | Ok _ =>
        trace w' = trace w ++ rounds n url ++ [HttpGet url 5] /\
        attempt_clock env url (count is_get (trace w)) (count is_sleep (trace w))
          (clock w) n < clock w + 1000 * timeout_seconds /\
        exists status_code,
          (http_reply env (count is_get (trace w) + n) url).1 = Response status_code /\
          status_code < 500
    | Raise e =>
        trace w' = trace w ++ rounds n url /\
        clock w' = attempt_clock env url (count is_get (trace w))
                     (count is_sleep (trace w)) (clock w) n /\
        clock w + 1000 * timeout_seconds <= clock w' /\
        e = TimeoutError (timeout_message url
              (last_raised (replies env url (count is_get (trace w)) n)))
    end /\
    (forall errs : list string,
        replies env url (count is_get (trace w)) n = map Throws errs ->
        last_raised (replies env url (count is_get (trace w)) n) = last errs).
Proof.
  intros Hfuel. destruct (wait_for_total fuel url timeout_seconds w Hfuel) as (r & w' & H).
  pose proof H as Hspec. rewrite wait_for_eq in Hspec. apply wait_loop_passes in Hspec.
  destruct Hspec as (n & Hfail & Hbefore & Hr).
  exists r, w', n. split; [assumption|]. split; [assumption|]. split; [assumption|].
  split.
  - destruct r as [[]|e]; exact Hr.
  - intros errs ->. apply last_raised_throws.
Qed.

(** C5: polling returns on the first response with a status below 500,
    whatever came before and whatever would come after: if the first [n]
    probes fail, each begun before the deadline, and the next one answers
    below 500, then [wait_for] returns without raising, having made
    [n + 1] requests and slept [n] times for 2 seconds. *)
Theorem wait_for_first_success fuel url timeout_seconds w (n : nat) status_code :
  (n < fuel)%nat ->
  Forall is_failure (replies env url (count is_get (trace w)) n) ->
  (http_reply env (count is_get (trace w) + n) url).1 = Response status_code ->
  status_code < 500 ->
  attempt_clock env url (count is_get (trace w)) (count is_sleep (trace w)) (clock w) n
    < clock w + 1000 * timeout_seconds ->
  exists w',
    wait_for env fuel url timeout_seconds w = Some (Ok tt, w') /\
    trace w' = trace w ++ rounds n url ++ [HttpGet url 5] /\
    count is_sleep (rounds n url ++ [HttpGet url 5]) = n /\
    count is_get (rounds n url ++ [HttpGet url 5]) = S n.
Proof.
  intros Hfuel Hfail Hr Hs Hclock. rewrite wait_for_eq.
  destruct (wait_loop_first_success url (clock w + 1000 * timeout_seconds) n
              fuel None w status_code Hfuel Hfail Hr Hs Hclock) as (w' & H & Htr & _).
  exists w'. split; [assumption|]. split; [assumption|].
  rewrite !count_app, count_sleeps_rounds, count_gets_rounds. simpl. lia.
Qed.

(** C10: with a timeout of zero or less the deadline has passed before
    the first test of the loop condition: [wait_for] raises the
    [TimeoutError] at once, in an unchanged world (no request was made),
    and the message reports the last error as [None]. *)
Theorem wait_for_nonpositive_timeout fuel url timeout_seconds w :
  timeout_seconds <= 0 ->
  wait_for env fuel url timeout_seconds w =
    Some (Raise (TimeoutError
                   ("Timed out waiting for " ++ url ++ ". Last error: None")%string), w).
Proof. intros H. rewrite wait_for_eq. now rewrite wait_loop_expired by lia. Qed.

(** The outcome of [wait_for], given room for all its passes. *)
Lemma wait_for_outcome fuel url timeout_seconds w :
  (max_attempts timeout_seconds <= fuel)%nat ->
  exists r w' (n : nat),
    wait_for env fuel url timeout_seconds w = Some (r, w') /\
    trace w' = trace w ++ polled url n r /\
    files w' = files w /\
    (count is_get (polled url n r) <= max_attempts timeout_seconds)%nat /\
    (r = Ok tt \/
     clock w + 1000 * timeout_seconds <= clock w' /\
     exists last_err, r = Raise (TimeoutError (timeout_message url last_err))).
Proof.
  intros Hfuel. destruct (wait_for_total fuel url timeout_seconds w Hfuel) as (r & w' & H).
  pose proof H as Hspec. rewrite wait_for_eq in Hspec. apply wait_loop_spec in Hspec.
  destruct Hspec as (n & _ & Hfiles & Hr).
  exists r, w', n. split; [assumption|]. unfold polled.
  rewrite count_app, count_gets_rounds.
  destruct r as [[]|e]; simpl.
  - destruct Hr as (Htr & Hclock & _). repeat split; try assumption.
    + apply max_attempts_bound. lia.
    + now left.
  - destruct Hr as (Htr & Hclock & Hdl & ->). rewrite app_nil_r.
    repeat split; try assumption.
    + rewrite Nat.add_0_r. destruct Hclock as [->|Hclock]; [lia|].
      apply max_attempts_bound. lia.
    + right. split; [assumption|]. eauto.
Qed.

Lemma polled_poll url n r : Forall (fun ev => is_poll ev = true) (polled url n r).
Proof.
  unfold polled. apply Forall_app. split; [apply rounds_poll|].
  destruct (is_ok r); repeat constructor.
Qed.

End Polling.

(** ** The smoke test *)

Section SmokeTest.
Import Docker Observe.
Variable env : environment.
Variable project_root : string.

(** *** Sequencing *)

Lemma bind_ok {A B} (m : M A) (k : A -> M B) w a w1 :
  m w = Some (Ok a, w1) -> (m ≫= k) w = k a w1.
Proof. intros H. unfold mbind, M_bind. now rewrite H. Qed.

Lemma bind_raise {A B} (m : M A) (k : A -> M B) w e w1 :
  m w = Some (Raise e, w1) -> (m ≫= k) w = Some (Raise e, w1).
Proof. intros H. unfold mbind, M_bind. now rewrite H. Qed.

Lemma bind_inv {A B} (m : M A) (k : A -> M B) w r w' :
  (m ≫= k) w = Some (r, w') ->
  (exists a w1, m w = Some (Ok a, w1) /\ k a w1 = Some (r, w')) \/
  (exists e, m w = Some (Raise e, w') /\ r = Raise e).
Proof.
  unfold mbind, M_bind. destruct (m w) as [[[a|e] w1]|]; intros H.
  - left. eauto.
  - right. injection H as <- <-. eauto.
  - discriminate.
Qed.

Lemma try_finally_ok {A} (body : M A) (handler : M unit) w r w1 w2 :
  body w = Some (r, w1) -> handler w1 = Some (Ok tt, w2) ->
  try_finally body handler w = Some (r, w2).
Proof. intros H1 H2. unfold try_finally. now rewrite H1, H2. Qed.

(** *** Frames *)

Lemma extends_refl Q w : extends Q w w.
Proof. split; [reflexivity|]. exists []. now rewrite app_nil_r. Qed.

Lemma extends_trans Q w1 w2 w3 : extends Q w1 w2 -> extends Q w2 w3 -> extends Q w1 w3.
Proof.
  intros (Hf1 & new1 & Ht1 & HQ1) (Hf2 & new2 & Ht2 & HQ2).
  split; [congruence|]. exists (new1 ++ new2).
  split; [now rewrite Ht2, Ht1, app_assoc | now apply Forall_app].
Qed.

Lemma framed_bind {A B} Q (m : M A) (k : A -> M B) :
  framed Q m -> (forall a, framed Q (k a)) -> framed Q (m ≫= k).
Proof.
  intros Hm Hk w r w' H. apply bind_inv in H as [(a & w1 & H1 & H2)|(e & H1 & _)].
  - eapply extends_trans; [eapply Hm | eapply Hk]; eassumption.
  - eapply Hm; eassumption.
Qed.

Lemma framed_ret {A} Q (a : A) : framed Q (mret a).
Proof. intros w r w' H. injection H as <- <-. apply extends_refl. Qed.

Lemma framed_try_finally {A} Q (body : M A) (handler : M unit) :
  framed Q body -> framed Q handler -> framed Q (try_finally body handler).
Proof.
  intros Hb Hh w r w' H. unfold try_finally in H.
  destruct (body w) as [[rb w1]|] eqn:Eb; [|discriminate].
  destruct (handler w1) as [[[[]|e] w2]|] eqn:Eh; [| |discriminate];
    injection H as <- <-;
    (eapply extends_trans; [eapply Hb | eapply Hh]; eassumption).
Qed.

Lemma subprocess_run_eq cmd check w :
  subprocess_run env cmd check w =
  let returncode := (process_exit env (count is_subprocess (trace w)) cmd).1 in
  if check && negb (Z.eqb returncode 0)
  then Some (Raise (CalledProcessError returncode cmd), after_process env cmd check w)
  else Some (Ok returncode, after_process env cmd check w).
Proof.
  unfold subprocess_run, after_process.
  now destruct (process_exit env (count is_subprocess (trace w)) cmd).
Qed.

Lemma after_process_extends (Q : event -> Prop) cmd check w :
  Q (Subprocess cmd check) -> extends Q w (after_process env cmd check w).
Proof. intros HQ. split; [reflexivity|]. exists [Subprocess cmd check]. split; [reflexivity|]. now constructor. Qed.

Lemma framed_subprocess_run (Q : event -> Prop) cmd check :
  Q (Subprocess cmd check) -> framed Q (subprocess_run env cmd check).
Proof.
  intros HQ w r w' H. rewrite subprocess_run_eq in H. simpl in H.
  destruct (check && negb _); injection H as <- <-; now apply after_process_extends.
Qed.

Lemma framed_run (Q : event -> Prop) cmd :
  Q (Subprocess cmd true) -> framed Q (run env cmd).
Proof.
  intros HQ. apply framed_bind; [now apply framed_subprocess_run|].
  intros _. apply framed_ret.
Qed.

Lemma framed_wait_for (Q : event -> Prop) fuel url timeout_seconds :
  (forall ev, is_poll ev = true -> Q ev) -> framed Q (wait_for env fuel url timeout_seconds).
Proof.
  intros HQ w r w' H. apply wait_for_frame in H as (Hfiles & polling & Htr & Hp).
  split; [assumption|]. exists polling. split; [assumption|].
  eapply Forall_impl; [eassumption|]. exact HQ.
Qed.

(** Everything after the environment file is settled: no file is
    touched, whatever the toolchain and the service do. *)
Lemma framed_after_setup (Q : event -> Prop) fuel :
  (forall ev, is_file_access ev = false -> Q ev) ->
  framed Q (run env (build_cmd project_root);;
            subprocess_run env rm_cmd false;;
            run env (run_cmd project_root);;
            try_finally (poll_endpoints env fuel) (teardown env)).
Proof.
  intros HQ.
  apply framed_bind; [apply framed_run; now apply HQ|]. intros _.
  apply framed_bind; [apply framed_subprocess_run; now apply HQ|]. intros _.
  apply framed_bind; [apply framed_run; now apply HQ|]. intros _.
  apply framed_try_finally.
  - apply framed_bind; [|intros _]; apply framed_wait_for;
      intros [] Hev; try discriminate; now apply HQ.
  - apply framed_bind; [apply framed_subprocess_run; now apply HQ|]. intros _.
    apply framed_bind; [apply framed_subprocess_run; now apply HQ|]. intros _.
    apply framed_ret.
Qed.

(** *** The steps, one by one *)

Lemma subprocess_unchecked cmd w :
  subprocess_run env cmd false w =
  Some (Ok (process_exit env (count is_subprocess (trace w)) cmd).1,
        after_process env cmd false w).
Proof. now rewrite subprocess_run_eq. Qed.

Lemma run_ok cmd w :
  (process_exit env (count is_subprocess (trace w)) cmd).1 = 0 ->
  run env cmd w = Some (Ok tt, after_process env cmd true w).
Proof.
  intros H. unfold run, mbind, M_bind. rewrite subprocess_run_eq. simpl. now rewrite H.
Qed.

Lemma run_fail cmd w :
  (process_exit env (count is_subprocess (trace w)) cmd).1 <> 0 ->
  run env cmd w =
  Some (Raise (CalledProcessError (process_exit env (count is_subprocess (trace w)) cmd).1 cmd),
        after_process env cmd true w).
Proof.
  intros H. unfold run, mbind, M_bind. rewrite subprocess_run_eq. simpl.
  apply Z.eqb_neq in H. now rewrite H.
Qed.

Lemma after_process_trace cmd check w :
  trace (after_process env cmd check w) = trace w ++ [Subprocess cmd check].
Proof. reflexivity. Qed.

Lemma after_process_count cmd check w :
  count is_subprocess (trace (after_process env cmd check w))
  = S (count is_subprocess (trace w)).
Proof. rewrite after_process_trace, count_app. simpl. lia. Qed.

Lemma teardown_eq w :
  teardown env w =
  Some (Ok tt, after_process env rmi_cmd false (after_process env rm_cmd false w)).
Proof.
  unfold teardown.
  rewrite (bind_ok _ _ _ _ _ (subprocess_unchecked rm_cmd w)).
  now rewrite (bind_ok _ _ _ _ _ (subprocess_unchecked rmi_cmd _)).
Qed.

Lemma ensure_env_file_present w :
  is_Some (files w !! env_file project_root) ->
  ensure_env_file project_root w =
  Some (Ok tt, log (PathExists (env_file project_root)) 0 w).
Proof.
  intros H. unfold ensure_env_file, mbind, M_bind, path_exists.
  now rewrite bool_decide_eq_true_2 by assumption.
Qed.

Lemma ensure_env_file_copied w data :
  files w !! env_file project_root = None ->
  files w !! template project_root = Some data ->
  ensure_env_file project_root w =
  Some (Ok tt,
        {| files := <[env_file project_root := data]> (files w);
           clock := clock w + 0 + 0 + 0;
           trace := trace w ++ [PathExists (env_file project_root);
                                PathExists (template project_root);
                                ReadText (template project_root);
                                WriteText (env_file project_root) data] |}).
Proof.
  intros He Ht. unfold ensure_env_file, mbind, M_bind, path_exists.
  rewrite bool_decide_eq_false_2 by (rewrite He; apply is_Some_None).
  simpl. rewrite bool_decide_eq_true_2 by (rewrite Ht; eauto).
  unfold read_text. simpl. rewrite Ht. unfold write_text. simpl.
  now rewrite <- !app_assoc.
Qed.

Lemma ensure_env_file_missing w :
  files w !! env_file project_root = None ->
  files w !! template project_root = None ->
  ensure_env_file project_root w =
  Some (Raise (FileNotFoundError "env.example missing; cannot create .env for test"),
        log (PathExists (template project_root)) 0
          (log (PathExists (env_file project_root)) 0 w)).
Proof.
  intros He Ht. unfold ensure_env_file, mbind, M_bind, path_exists.
  rewrite bool_decide_eq_false_2 by (rewrite He; apply is_Some_None).
  simpl. now rewrite bool_decide_eq_false_2 by (rewrite Ht; apply is_Some_None).
Qed.

(** With an environment file or a template to make it from, the first
    step returns, having run no subprocess. *)
Lemma ensure_env_file_ready w :
  is_Some (files w !! env_file project_root) \/
  is_Some (files w !! template project_root) ->
  exists w1 setup,
    ensure_env_file project_root w = Some (Ok tt, w1) /\
    trace w1 = trace w ++ setup /\
    Forall (fun ev => is_subprocess ev = false) setup.
Proof.
  intros H.
  destruct (files w !! env_file project_root) as [present|] eqn:He.
  - eexists _, [PathExists (env_file project_root)].
    split; [apply ensure_env_file_present; rewrite He; eauto|].
    split; [reflexivity|]. repeat constructor.
  - destruct H as [[? H]|[data Ht]]; [discriminate|].
    eexists _, _. split; [now apply (ensure_env_file_copied w data)|].
    split; [reflexivity|]. repeat constructor.
Qed.

Lemma max_attempts_health : max_attempts 90 = 45%nat.
Proof. reflexivity. Qed.

Lemma max_attempts_docs : max_attempts 30 = 15%nat.
Proof. reflexivity. Qed.

(** The two polls of the [try] block. *)
Lemma poll_endpoints_outcome fuel w :
  (45 <= fuel)%nat ->
  exists r w' health docs,
    poll_endpoints env fuel w = Some (r, w') /\
    trace w' = trace w ++ health ++ docs /\
    Forall (fun ev => is_poll ev = true) (health ++ docs) /\
    (count is_get health <= 45)%nat /\
    (count is_get docs <= 15)%nat /\
    (r = Ok tt \/ exists msg, r = Raise (TimeoutError msg)).
Proof.
  intros Hfuel.
  destruct (wait_for_outcome env fuel health_url 90 w)
    as (r1 & w1 & n1 & H1 & Htr1 & _ & Hn1 & Hr1);
    [rewrite max_attempts_health; lia|].
  rewrite max_attempts_health in Hn1. unfold poll_endpoints.
  destruct r1 as [[]|e1].
  - rewrite (bind_ok _ _ _ _ _ H1).
    destruct (wait_for_outcome env fuel docs_url 30 w1)
      as (r2 & w2 & n2 & H2 & Htr2 & _ & Hn2 & Hr2);
      [rewrite max_attempts_docs; lia|].
    rewrite max_attempts_docs in Hn2.
    exists r2, w2, (polled health_url n1 (Ok tt)), (polled docs_url n2 r2).
    split; [assumption|]. split; [now rewrite Htr2, Htr1, <- app_assoc|].
    split; [apply Forall_app; split; apply polled_poll|].
    repeat split; try assumption.
    destruct Hr2 as [->|(_ & le & ->)]; eauto.
  - rewrite (bind_raise _ _ _ _ _ H1).
    exists (Raise e1), w1, (polled health_url n1 (Raise e1)), [].
    split; [reflexivity|]. rewrite app_nil_r. split; [assumption|].
    split; [apply polled_poll|]. repeat split; try assumption; simpl; try lia.
    destruct Hr1 as [?|(_ & le & Hr1)]; [discriminate|]. eauto.
Qed.

Lemma count_issues_none cmd (tr : list event) :
  Forall (fun ev => is_subprocess ev = false) tr -> count (issues cmd) tr = O.
Proof.
  intros H. apply count_none. eapply Forall_impl; [eassumption|].
  now intros [] Hev.
Qed.

Lemma poll_not_subprocess (tr : list event) :
  Forall (fun ev => is_poll ev = true) tr ->
  Forall (fun ev => is_subprocess ev = false) tr.
Proof. intros H. eapply Forall_impl; [eassumption|]. now intros [] Hev. Qed.

Lemma issues_rmi_build check :
  issues rmi_cmd (Subprocess (build_cmd project_root) check) = false.
Proof. apply bool_decide_eq_false_2. unfold build_cmd, rmi_cmd. intros H. discriminate H. Qed.

Lemma issues_rmi_rm check : issues rmi_cmd (Subprocess rm_cmd check) = false.
Proof. apply bool_decide_eq_false_2. unfold rm_cmd, rmi_cmd. intros H. discriminate H. Qed.

Lemma issues_rmi_run check :
  issues rmi_cmd (Subprocess (run_cmd project_root) check) = false.
Proof. apply bool_decide_eq_false_2. unfold run_cmd, rmi_cmd. intros H. discriminate H. Qed.

Lemma issues_rmi_rmi check : issues rmi_cmd (Subprocess rmi_cmd check) = true.
Proof. now apply bool_decide_eq_true_2. Qed.

(** *** The claims about the test *)

(** C9: each polling loop comes to an end.  Given room for the
    [max_attempts] passes that its deadline allows, [wait_for] has an
    outcome: it returns, or it raises the [TimeoutError] once the
    deadline has passed, having made no more than [max_attempts]
    requests, each failed one followed by a 2-second sleep.  For the two
    polls of the test that is at most 45 requests to [/health] in 90
    seconds and at most 15 to [/docs] in 30 seconds. *)
Theorem polling_terminates :
  (forall fuel url timeout_seconds w,
      (max_attempts timeout_seconds <= fuel)%nat ->
      exists r w' (n : nat),
        wait_for env fuel url timeout_seconds w = Some (r, w') /\
        trace w' = trace w ++ polled url n r /\
        (count is_get (polled url n r) <= max_attempts timeout_seconds)%nat /\
        (r = Ok tt \/
         clock w + 1000 * timeout_seconds <= clock w' /\
         exists last_err, r = Raise (TimeoutError (timeout_message url last_err)))) /\
  (forall fuel w,
      (45 <= fuel)%nat ->
      exists r w' health docs,
        poll_endpoints env fuel w = Some (r, w') /\
        trace w' = trace w ++ health ++ docs /\
        Forall (fun ev => is_poll ev = true) (health ++ docs) /\
        (count is_get health <= 45)%nat /\
        (count is_get docs <= 15)%nat /\
        (r = Ok tt \/ exists msg, r = Raise (TimeoutError msg))).
Proof.
  split.
  - intros fuel url timeout_seconds w Hfuel.
    destruct (wait_for_outcome env fuel url timeout_seconds w Hfuel)
      as (r & w' & n & H & Htr & _ & Hn & Hr).
    exists r, w', n. auto.
  - apply poll_endpoints_outcome.
Qed.

(** C6: with neither the environment file nor the template, the test
    raises the missing-template [FileNotFoundError] after the two
    existence checks, before any [docker] command is run. *)
Theorem missing_template_before_toolchain fuel w :
  files w !! env_file project_root = None ->
  files w !! template project_root = None ->
  exists w',
    test_docker_container_smoke env project_root fuel w =
      Some (Raise (FileNotFoundError "env.example missing; cannot create .env for test"), w') /\
    trace w' = trace w ++ [PathExists (env_file project_root);
                           PathExists (template project_root)] /\
    count is_subprocess (trace w') = count is_subprocess (trace w) /\
    files w' = files w.
Proof.
  intros He Ht. eexists. split.
  - unfold test_docker_container_smoke.
    apply bind_raise. now apply ensure_env_file_missing.
  - simpl. rewrite <- app_assoc. split; [reflexivity|]. split; [|reflexivity].
    rewrite count_app. simpl. lia.
Qed.

(** C7: when the environment file exists at the start, the
    materialization step only checks that it exists; and whatever the
    rest of the test does, at its end every file holds what it held
    (the environment file was not overwritten) and no file was read or
    written (the template was not read). *)
Theorem existing_env_file_untouched fuel w data :
  files w !! env_file project_root = Some data ->
  ensure_env_file project_root w =
    Some (Ok tt, log (PathExists (env_file project_root)) 0 w) /\
  (forall r w',
      test_docker_container_smoke env project_root fuel w = Some (r, w') ->
      files w' = files w /\
      files w' !! env_file project_root = Some data /\
      exists new, trace w' = trace w ++ new /\
                  Forall (fun ev => is_file_access ev = false) new).
Proof.
  intros He.
  assert (H1 : ensure_env_file project_root w =
               Some (Ok tt, log (PathExists (env_file project_root)) 0 w))
    by (apply ensure_env_file_present; rewrite He; eauto).
  split; [assumption|]. intros r w' H.
  unfold test_docker_container_smoke in H. rewrite (bind_ok _ _ _ _ _ H1) in H.
  apply (framed_after_setup (fun ev => is_file_access ev = false)) in H; [|auto].
  destruct H as (Hfiles & new & Htr & Hnew). simpl in Hfiles, Htr.
  split; [assumption|]. split; [now rewrite Hfiles|].
  exists (PathExists (env_file project_root) :: new).
  split; [now rewrite Htr, <- app_assoc | now constructor].
Qed.

(** Once the container-start step has succeeded, the teardown is
    attempted exactly once on every way out: whether both polls return or
    one of them raises its [TimeoutError], the test ends with
    [docker rm -f] of the container and [docker rmi] of the image, the only
    subprocesses after [docker run]. *)
Theorem teardown_once_after_start fuel w :
  (45 <= fuel)%nat ->
  is_Some (files w !! env_file project_root) \/
    is_Some (files w !! template project_root) ->
  (process_exit env (count is_subprocess (trace w)) (build_cmd project_root)).1 = 0 ->
  (process_exit env (count is_subprocess (trace w) + 2) (run_cmd project_root)).1 = 0 ->
  exists r w' setup polling,
    test_docker_container_smoke env project_root fuel w = Some (r, w') /\
    (r = Ok tt \/ exists msg, r = Raise (TimeoutError msg)) /\
    trace w' = trace w ++ setup
               ++ [Subprocess (build_cmd project_root) true;
                   Subprocess rm_cmd false;
                   Subprocess (run_cmd project_root) true]
               ++ polling
               ++ [Subprocess rm_cmd false; Subprocess rmi_cmd false] /\
    Forall (fun ev => is_subprocess ev = false) setup /\
    Forall (fun ev => is_poll ev = true) polling /\
    teardown_attempted_once
      (setup ++ [Subprocess (build_cmd project_root) true;
                 Subprocess rm_cmd false;
                 Subprocess (run_cmd project_root) true]
       ++ polling ++ [Subprocess rm_cmd false; Subprocess rmi_cmd false]) /\
    count is_subprocess (polling ++ [Subprocess rm_cmd false; Subprocess rmi_cmd false])
      = 2%nat.
Proof.
  intros Hfuel Hcfg Hbuild Hrun.
  destruct (ensure_env_file_ready w Hcfg) as (w1 & setup & H1 & Htr1 & Hsetup).
  assert (Hk : count is_subprocess (trace w1) = count is_subprocess (trace w))
    by (rewrite Htr1, count_app, (count_none _ setup Hsetup); lia).
  pose (w2 := after_process env (build_cmd project_root) true w1).
  assert (H2 : run env (build_cmd project_root) w1 = Some (Ok tt, w2))
    by (apply run_ok; now rewrite Hk).
  pose (w3 := after_process env rm_cmd false w2).
  pose proof (subprocess_unchecked rm_cmd w2) as H3. fold w3 in H3.
  pose (w4 := after_process env (run_cmd project_root) true w3).
  assert (H4 : run env (run_cmd project_root) w3 = Some (Ok tt, w4)).
  { apply run_ok. unfold w3, w2. rewrite !after_process_count, Hk.
    now replace (S (S (count is_subprocess (trace w))))
      with (count is_subprocess (trace w) + 2)%nat by lia. }
  destruct (poll_endpoints_outcome fuel w4 Hfuel)
    as (r & w5 & health & docs & H5 & Htr5 & Hpoll & _ & _ & Hr).
  exists r, (after_process env rmi_cmd false (after_process env rm_cmd false w5)),
    setup, (health ++ docs).
  split.
  { unfold test_docker_container_smoke.
    rewrite (bind_ok _ _ _ _ _ H1), (bind_ok _ _ _ _ _ H2),
      (bind_ok _ _ _ _ _ H3), (bind_ok _ _ _ _ _ H4).
    apply (try_finally_ok _ _ _ _ _ _ H5 (teardown_eq w5)). }
  split; [assumption|]. split.
  { rewrite !after_process_trace, Htr5. unfold w4, w3, w2.
    rewrite !after_process_trace, Htr1. now rewrite <- !app_assoc. }
  split; [assumption|]. split; [assumption|].
  pose proof (poll_not_subprocess _ Hpoll) as Hquiet.
  split; [split|].
  - rewrite (count_app _ setup), (count_issues_none _ setup Hsetup).
    rewrite (count_app _ [_; _; _]), (count_app _ (health ++ docs)),
      (count_issues_none _ (health ++ docs) Hquiet).
    unfold count. rewrite issues_rmi_build, issues_rmi_rm, issues_rmi_run, issues_rmi_rmi.
    reflexivity.
  - exists (setup ++ [Subprocess (build_cmd project_root) true;
                      Subprocess rm_cmd false;
                      Subprocess (run_cmd project_root) true] ++ health ++ docs).
    rewrite <- !app_assoc. reflexivity.
  - rewrite count_app, (count_none _ (health ++ docs) Hquiet). reflexivity.
Qed.

End SmokeTest.

(** ** The container-start command *)

Section ContainerStart.
Import Docker Observe.

Lemma length_append (a b : string) :
  String.length (a ++ b)%string = (String.length a + String.length b)%nat.
Proof. induction a as [|c a IH]; simpl; [reflexivity|now rewrite IH]. Qed.

Lemma env_file_not_detach_flag (project_root : string) :
  is_detach_flag (env_file project_root) = false.
Proof.
  unfold is_detach_flag, env_file. apply orb_false_intro; apply String.eqb_neq; intros H.
  - apply (f_equal String.length) in H. rewrite length_append in H. simpl in H. lia.
  - pose proof (f_equal String.length H) as Hlen. rewrite length_append in Hlen.
    simpl in Hlen.
    destruct project_root as [|c1 [|c2 [|c3 [|c4 rest]]]]; simpl in Hlen; try lia.
    simpl in H. discriminate H.
Qed.

(** C3 (what the code does): the container-start step runs
    [docker run --name NAME --env-file ENV -p 2024:2024 IMAGE].  The port
    pair and the environment file are there; no argument detaches the
    container ([-d], [--detach]), so [docker run] stays in the foreground
    and [subprocess.run] waits for the container to exit. *)
Theorem container_start_not_detached (project_root : string) :
  run_cmd project_root =
    ["docker"; "run"; "--name"; "open-deep-research-test";
     "--env-file"; (project_root ++ "/.env")%string;
     "-p"; "2024:2024"; "open-deep-research:test"] /\
  existsb is_detach_flag (run_cmd project_root) = false.
Proof.
  split; [reflexivity|].
  unfold run_cmd. simpl existsb.
  rewrite env_file_not_detach_flag. reflexivity.
Qed.

End ContainerStart.

(** ** Worked instances *)

Section Instances.
Import Docker Observe Samples.

(** The specification's scenario: two refused connections, then 200. *)
Example third_poll_succeeds :
  wait_for up_on_third 3 health_url 90 bare =
  Some (Ok tt,
        {| files := ∅; clock := 4032;
           trace := [HttpGet "http://localhost:2024/health" 5; Sleep 2;
                     HttpGet "http://localhost:2024/health" 5; Sleep 2;
                     HttpGet "http://localhost:2024/health" 5] |}).
Proof. vm_compute. reflexivity. Qed.

(** A whole run of the test from a fresh checkout. *)
Example smoke_run_trace :
  (fun out => (fst <$> out, trace ∘ snd <$> out))
    (test_docker_container_smoke up_on_third repo 45 fresh) =
  (Some (Ok tt),
   Some [PathExists "/repo/.env"; PathExists "/repo/env.example";
         ReadText "/repo/env.example"; WriteText "/repo/.env" "KEY=";
         Subprocess ["docker"; "build"; "-t"; "open-deep-research:test"; "/repo"] true;
         Subprocess ["docker"; "rm"; "-f"; "open-deep-research-test"] false;
         Subprocess ["docker"; "run"; "--name"; "open-deep-research-test";
                     "--env-file"; "/repo/.env"; "-p"; "2024:2024";
                     "open-deep-research:test"] true;
         HttpGet "http://localhost:2024/health" 5; Sleep 2;
         HttpGet "http://localhost:2024/health" 5; Sleep 2;
         HttpGet "http://localhost:2024/health" 5;
         HttpGet "http://localhost:2024/docs" 5;
         Subprocess ["docker"; "rm"; "-f"; "open-deep-research-test"] false;
         Subprocess ["docker"; "rmi"; "open-deep-research:test"] false]).
Proof. vm_compute. reflexivity. Qed.

(** A whole run against a service that never comes up: 45 refused
    requests, the [TimeoutError], and the teardown all the same. *)
Example smoke_run_unreachable :
  (fun out => (fst <$> out, trace ∘ snd <$> out))
    (test_docker_container_smoke unreachable repo 45 configured) =
  (Some (Raise (TimeoutError
     "Timed out waiting for http://localhost:2024/health. Last error: Connection refused #44")),
   Some ([PathExists "/repo/.env";
          Subprocess (build_cmd repo) true;
          Subprocess rm_cmd false;
          Subprocess (run_cmd repo) true]
         ++ rounds 45 health_url
         ++ [Subprocess rm_cmd false; Subprocess rmi_cmd false])).
Proof. vm_compute. reflexivity. Qed.

(** C2 (what the code does where it departs from the claim): the image
    is built, [docker run] exits with 125, and the test ends on the
    [CalledProcessError] with no [docker rm -f] after the run and no
    [docker rmi] at all; the [finally] that removes the image when a poll
    fails is not reached, and the built image is left behind. *)
Lemma teardown_skipped_when_start_fails :
  exists w',
    test_docker_container_smoke start_fails repo 45 configured =
      Some (Raise (CalledProcessError 125 (run_cmd repo)), w') /\
    (process_exit start_fails 0 (build_cmd repo)).1 = 0 /\
    trace w' = [PathExists (env_file repo);
                Subprocess (build_cmd repo) true;
                Subprocess rm_cmd false;
                Subprocess (run_cmd repo) true] /\
    count (issues rmi_cmd) (trace w') = O /\
    ~ teardown_attempted_once (trace w').
Proof.
  eexists. split; [vm_compute; reflexivity|].
  split; [reflexivity|]. split; [reflexivity|]. split; [reflexivity|].
  intros [Hcount _]. vm_compute in Hcount. discriminate Hcount.
Qed.

Lemma teardown_once_after_start_witness :
  (45 <= 45)%nat /\
  (is_Some (files fresh !! env_file repo) \/ is_Some (files fresh !! template repo)) /\
  (process_exit unreachable (count is_subprocess (trace fresh)) (build_cmd repo)).1 = 0 /\
  (process_exit unreachable (count is_subprocess (trace fresh) + 2) (run_cmd repo)).1 = 0 /\
  exists r w' setup polling,
    test_docker_container_smoke unreachable repo 45 fresh = Some (r, w') /\
    (r = Ok tt \/ exists msg, r = Raise (TimeoutError msg)) /\
    trace w' = trace fresh ++ setup
               ++ [Subprocess (build_cmd repo) true;
                   Subprocess rm_cmd false;
                   Subprocess (run_cmd repo) true]
               ++ polling
               ++ [Subprocess rm_cmd false; Subprocess rmi_cmd false] /\
    Forall (fun ev => is_subprocess ev = false) setup /\
    Forall (fun ev => is_poll ev = true) polling /\
    teardown_attempted_once
      (setup ++ [Subprocess (build_cmd repo) true;
                 Subprocess rm_cmd false;
                 Subprocess (run_cmd repo) true]
       ++ polling ++ [Subprocess rm_cmd false; Subprocess rmi_cmd false]) /\
    count is_subprocess (polling ++ [Subprocess rm_cmd false; Subprocess rmi_cmd false])
      = 2%nat.
Proof.
  assert (H1 : (45 <= 45)%nat) by lia.
  assert (H2 : is_Some (files fresh !! env_file repo) \/
               is_Some (files fresh !! template repo))
    by (right; vm_compute; eauto).
  assert (H3 : (process_exit unreachable (count is_subprocess (trace fresh))
                  (build_cmd repo)).1 = 0) by reflexivity.
  assert (H4 : (process_exit unreachable (count is_subprocess (trace fresh) + 2)
                  (run_cmd repo)).1 = 0) by reflexivity.
  split; [exact H1|]. split; [exact H2|]. split; [exact H3|]. split; [exact H4|].
  exact (teardown_once_after_start unreachable repo 45 fresh H1 H2 H3 H4).
Defined.

(** C4, the claim as stated fails: the service refuses one connection and
    then answers 503 until the deadline.  The most recent transient error
    is the 503 response, yet the [TimeoutError] names the refused
    connection: a bad status is retried but never kept. *)
Lemma timeout_omits_bad_status :
  exists w',
    wait_for unhealthy 45 health_url 3 bare =
      Some (Raise (TimeoutError
        "Timed out waiting for http://localhost:2024/health. Last error: Connection refused"),
            w') /\
    trace w' = rounds 2 health_url /\
    last_transient (replies unhealthy health_url 0 2) = Some (BadStatus 503) /\
    ~ carries_last_transient health_url (replies unhealthy health_url 0 2)
        (TimeoutError
        "Timed out waiting for http://localhost:2024/health. Last error: Connection refused").
Proof.
  eexists. split; [vm_compute; reflexivity|].
  split; [reflexivity|]. split; [reflexivity|].
  intros (last_err & _ & H). vm_compute in H.
  destruct last_err; discriminate H.
Qed.

Lemma wait_for_reports_last_raised_witness :
  (max_attempts 90 <= 45)%nat /\
  exists r w' (n : nat),
    wait_for unreachable 45 health_url 90 bare = Some (r, w') /\
    Forall is_failure (replies unreachable health_url (count is_get (trace bare)) n) /\
    (forall k : nat, (k < n)%nat ->
       attempt_clock unreachable health_url (count is_get (trace bare))
         (count is_sleep (trace bare)) (clock bare) k < clock bare + 1000 * 90) /\
    match r with
    | Ok _ =>
        trace w' = trace bare ++ rounds n health_url ++ [HttpGet health_url 5] /\
        attempt_clock unreachable health_url (count is_get (trace bare))
          (count is_sleep (trace bare)) (clock bare) n < clock bare + 1000 * 90 /\
        exists status_code,
          (http_reply unreachable (count is_get (trace bare) + n) health_url).1
            = Response status_code /\
          status_code < 500
    | Raise e =>
        trace w' = trace bare ++ rounds n health_url /\
        clock w' = attempt_clock unreachable health_url (count is_get (trace bare))
                     (count is_sleep (trace bare)) (clock bare) n /\
        clock bare + 1000 * 90 <= clock w' /\
        e = TimeoutError (timeout_message health_url
              (last_raised (replies unreachable health_url (count is_get (trace bare)) n)))
    end /\
    (forall errs : list string,
        replies unreachable health_url (count is_get (trace bare)) n = map Throws errs ->
        last_raised (replies unreachable health_url (count is_get (trace bare)) n)
        = last errs).
Proof.
  assert (H : (max_attempts 90 <= 45)%nat) by (vm_compute; lia).
  split; [exact H|].
  exact (wait_for_reports_last_raised unreachable 45 health_url 90 bare H).
Defined.

(** What that run reports: the 45th refusal. *)
Example unreachable_reports_last_refusal :
  fst <$> wait_for unreachable 45 health_url 90 bare =
  Some (Raise (TimeoutError
    "Timed out waiting for http://localhost:2024/health. Last error: Connection refused #44")).
Proof. vm_compute. reflexivity. Qed.

Lemma wait_for_first_success_witness :
  (2 < 3)%nat /\
  Forall is_failure (replies up_on_third health_url (count is_get (trace bare)) 2) /\
  (http_reply up_on_third (count is_get (trace bare) + 2) health_url).1 = Response 200 /\
  200 < 500 /\
  attempt_clock up_on_third health_url (count is_get (trace bare))
    (count is_sleep (trace bare)) (clock bare) 2 < clock bare + 1000 * 90 /\
  exists w',
    wait_for up_on_third 3 health_url 90 bare = Some (Ok tt, w') /\
    trace w' = trace bare ++ rounds 2 health_url ++ [HttpGet health_url 5] /\
    count is_sleep (rounds 2 health_url ++ [HttpGet health_url 5]) = 2%nat /\
    count is_get (rounds 2 health_url ++ [HttpGet health_url 5]) = 3%nat.
Proof.
  assert (H1 : (2 < 3)%nat) by lia.
  assert (H2 : Forall is_failure
                 (replies up_on_third health_url (count is_get (trace bare)) 2))
    by (vm_compute; repeat constructor).
  assert (H3 : (http_reply up_on_third (count is_get (trace bare) + 2) health_url).1
               = Response 200) by reflexivity.
  assert (H4 : 200 < 500) by lia.
  assert (H5 : attempt_clock up_on_third health_url (count is_get (trace bare))
                 (count is_sleep (trace bare)) (clock bare) 2 < clock bare + 1000 * 90)
    by (vm_compute; reflexivity).
  split; [exact H1|]. split; [exact H2|]. split; [exact H3|]. split; [exact H4|].
  split; [exact H5|].
  exact (wait_for_first_success up_on_third 3 health_url 90 bare 2 200 H1 H2 H3 H4 H5).
Defined.

Lemma missing_template_before_toolchain_witness :
  files bare !! env_file repo = None /\
  files bare !! template repo = None /\
  exists w',
    test_docker_container_smoke up_on_third repo 45 bare =
      Some (Raise (FileNotFoundError "env.example missing; cannot create .env for test"), w') /\
    trace w' = trace bare ++ [PathExists (env_file repo); PathExists (template repo)] /\
    count is_subprocess (trace w') = count is_subprocess (trace bare) /\
    files w' = files bare.
Proof.
  assert (H1 : files bare !! env_file repo = None) by reflexivity.
  assert (H2 : files bare !! template repo = None) by reflexivity.
  split; [exact H1|]. split; [exact H2|].
  exact (missing_template_before_toolchain up_on_third repo 45 bare H1 H2).
Defined.

Lemma existing_env_file_untouched_witness :
  files configured !! env_file repo = Some "KEY=local" /\
  ensure_env_file repo configured =
    Some (Ok tt, log (PathExists (env_file repo)) 0 configured) /\
  (forall r w',
      test_docker_container_smoke up_on_third repo 45 configured = Some (r, w') ->
      files w' = files configured /\
      files w' !! env_file repo = Some "KEY=local" /\
      exists new, trace w' = trace configured ++ new /\
                  Forall (fun ev => is_file_access ev = false) new).
Proof.
  assert (H : files configured !! env_file repo = Some "KEY=local")
    by (vm_compute; reflexivity).
  split; [exact H|].
  exact (existing_env_file_untouched up_on_third repo 45 configured "KEY=local" H).
Defined.

Lemma polling_terminates_witness :
  (max_attempts 90 <= 45)%nat /\
  (exists r w' (n : nat),
      wait_for unreachable 45 health_url 90 bare = Some (r, w') /\
      trace w' = trace bare ++ polled health_url n r /\
      (count is_get (polled health_url n r) <= max_attempts 90)%nat /\
      (r = Ok tt \/
       clock bare + 1000 * 90 <= clock w' /\
       exists last_err, r = Raise (TimeoutError (timeout_message health_url last_err)))) /\
  (45 <= 45)%nat /\
  (exists r w' health docs,
      poll_endpoints unreachable 45 bare = Some (r, w') /\
      trace w' = trace bare ++ health ++ docs /\
      Forall (fun ev => is_poll ev = true) (health ++ docs) /\
      (count is_get health <= 45)%nat /\
      (count is_get docs <= 15)%nat /\
      (r = Ok tt \/ exists msg, r = Raise (TimeoutError msg))).
Proof.
  assert (H1 : (max_attempts 90 <= 45)%nat) by (vm_compute; lia).
  assert (H2 : (45 <= 45)%nat) by lia.
  split; [exact H1|].
  split; [exact (proj1 (polling_terminates unreachable) 45%nat health_url 90 bare H1)|].
  split; [exact H2|].
  exact (proj2 (polling_terminates unreachable) 45%nat bare H2).
Defined.

Lemma wait_for_nonpositive_timeout_witness :
  0 <= 0 /\
  wait_for up_on_third 45 health_url 0 bare =
    Some (Raise (TimeoutError
                   ("Timed out waiting for " ++ health_url ++ ". Last error: None")%string),
          bare).
Proof.
  assert (H : 0 <= 0) by lia.
  split; [exact H|].
  exact (wait_for_nonpositive_timeout up_on_third 45 health_url 0 bare H).
Defined.

End Instances.


(** * Further properties *)

(** ** The identity provider *)

Section MoreAuth.
Import Auth.

(** The record depends on the environment through [DEV_USER_ID] alone, and
    not on the credential: two calls agree as soon as the two environments
    agree on that one variable. *)
Theorem get_current_user_reads_only_dev_user_id
    (environ1 environ2 : gmap string string) (authorization1 authorization2 : option string) :
  environ1 !! "DEV_USER_ID" = environ2 !! "DEV_USER_ID" ->
  get_current_user environ1 authorization1 = get_current_user environ2 authorization2.
Proof.
  intros H. unfold get_current_user, environ_get. now rewrite H.
Qed.

End MoreAuth.

(** ** The polling loop *)

Section MorePolling.
Import Docker Observe.
Variable env : environment.

Lemma replies_Forall (P : reply -> Prop) url n : forall g,
  (forall k, P (http_reply env k url).1) -> Forall P (replies env url g n).
Proof.
  induction n as [|n IH]; intros g H; [constructor|].
  rewrite replies_S. constructor; [apply H | now apply IH].
Qed.

Lemma fold_remember_responses (rs : list reply) : forall last_err,
  Forall (fun r => exists status_code, r = Response status_code) rs ->
  fold_left remember rs last_err = last_err.
Proof.
  induction rs as [|r rs IH]; intros last_err H; [reflexivity|].
  apply Forall_cons in H as [[sc ->] H]. simpl. now apply IH.
Qed.

(** When no probe ever succeeds, [wait_for] ends on its [TimeoutError]. *)
Lemma wait_for_all_fail fuel url timeout_seconds w :
  (max_attempts timeout_seconds <= fuel)%nat ->
  (forall k, is_failure (http_reply env k url).1) ->
  exists w' (n : nat),
    wait_for env fuel url timeout_seconds w =
      Some (Raise (TimeoutError (timeout_message url
              (last_raised (replies env url (count is_get (trace w)) n)))), w') /\
    trace w' = trace w ++ rounds n url /\
    files w' = files w /\
    (n <= max_attempts timeout_seconds)%nat.
Proof.
  intros Hfuel Hfail.
  destruct (wait_for_total env fuel url timeout_seconds w Hfuel) as (r & w' & H).
  pose proof H as Hspec. rewrite wait_for_eq in Hspec. apply wait_loop_spec in Hspec.
  destruct Hspec as (n & _ & Hfiles & Hr). destruct r as [[]|e].
  - destruct Hr as (_ & _ & sc & Hsc & Hlt).
    specialize (Hfail (count is_get (trace w) + n)%nat).
    rewrite Hsc in Hfail. simpl in Hfail. lia.
  - destruct Hr as (Htr & Hclock & _ & ->).
    exists w', n. split; [assumption|]. split; [assumption|]. split; [assumption|].
    destruct Hclock as [->|Hclock]; [lia|]. apply max_attempts_bound. lia.
Qed.

(** A successful return is earned: if [wait_for] returns, its last
    request was answered with a status below 500 (a 404 will do), every
    request before it had failed, and nothing follows that request. *)
Theorem wait_for_returns_only_on_response fuel url timeout_seconds w w' :
  wait_for env fuel url timeout_seconds w = Some (Ok tt, w') ->
  exists (n : nat) status_code,
    (http_reply env (count is_get (trace w) + n) url).1 = Response status_code /\
    status_code < 500 /\
    Forall is_failure (replies env url (count is_get (trace w)) n) /\
    trace w' = trace w ++ rounds n url ++ [HttpGet url 5] /\
    clock w + 2000 * Z.of_nat n < clock w + 1000 * timeout_seconds.
Proof.
  rewrite wait_for_eq. intros H. apply wait_loop_spec in H.
  destruct H as (n & Hfail & _ & Htr & Hclock & sc & Hsc & Hlt).
  exists n, sc. auto.
Qed.

(** Failures that raise nothing leave nothing to report: if every
    request is answered, with a status of 500 or more, the [TimeoutError]
    that ends the polling says [Last error: None]. *)
Theorem wait_for_silent_failures_report_none fuel url timeout_seconds w :
  (max_attempts timeout_seconds <= fuel)%nat ->
  (forall k, exists status_code,
      (http_reply env k url).1 = Response status_code /\ 500 <= status_code) ->
  exists w' (n : nat),
    wait_for env fuel url timeout_seconds w =
      Some (Raise (TimeoutError
                     ("Timed out waiting for " ++ url ++ ". Last error: None")%string), w') /\
    trace w' = trace w ++ rounds n url.
Proof.
  intros Hfuel Hresp.
  destruct (wait_for_all_fail fuel url timeout_seconds w Hfuel) as (w' & n & H & Htr & _).
  { intros k. destruct (Hresp k) as (sc & -> & Hsc). exact Hsc. }
  exists w', n. split; [|assumption]. rewrite H. unfold last_raised.
  rewrite fold_remember_responses; [reflexivity|].
  apply replies_Forall. intros k. destruct (Hresp k) as (sc & -> & _). eauto.
Qed.

(** A positive timeout always probes: with [timeout_seconds] above 0 the
    first test of the loop condition passes, so at least one request is
    made before [wait_for] returns or raises. *)
Theorem wait_for_positive_timeout_probes fuel url timeout_seconds w :
  0 < timeout_seconds ->
  (max_attempts timeout_seconds <= fuel)%nat ->
  exists r w' rest,
    wait_for env fuel url timeout_seconds w = Some (r, w') /\
    trace w' = trace w ++ HttpGet url 5 :: rest.
Proof.
  intros Hpos Hfuel.
  destruct (wait_for_total env fuel url timeout_seconds w Hfuel) as (r & w' & H).
  exists r, w'. pose proof H as Hrun. rewrite wait_for_eq in Hrun.
  destruct fuel as [|fuel].
  { simpl in Hrun. rewrite bool_decide_eq_true_2 in Hrun by lia. discriminate. }
  destruct (reply_cases (http_reply env (count is_get (trace w)) url).1)
    as [(sc & Hr & Hs)|Hf].
  - rewrite (wait_loop_success env _ _ _ _ _ sc) in Hrun by (assumption || lia).
    injection Hrun as <- <-. exists []. split; [assumption|].
    now rewrite requests_get_eq.
  - rewrite wait_loop_retry in Hrun by (assumption || lia).
    apply wait_loop_spec in Hrun. destruct Hrun as (n & _ & _ & Hr).
    rewrite next_pass_trace in Hr. unfold round in Hr.
    destruct r as [[]|e].
    + destruct Hr as (Htr & _). eexists. split; [assumption|].
      rewrite Htr, <- !app_assoc. reflexivity.
    + destruct Hr as (Htr & _). eexists. split; [assumption|].
      rewrite Htr, <- !app_assoc. reflexivity.
Qed.

End MorePolling.

(** ** The smoke test *)

Section MoreSmoke.
Import Docker Observe.
Variable env : environment.
Variable project_root : string.


(** The three ways the first step can go. *)
Lemma ensure_env_file_cases w :
  (is_Some (files w !! env_file project_root) /\
   ensure_env_file project_root w =
     Some (Ok tt, log (PathExists (env_file project_root)) 0 w)) \/
  (files w !! env_file project_root = None /\
   exists data,
     files w !! template project_root = Some data /\
     ensure_env_file project_root w =
       Some (Ok tt,
             {| files := <[env_file project_root := data]> (files w);
                clock := clock w + 0 + 0 + 0;
                trace := trace w ++ [PathExists (env_file project_root);
                                     PathExists (template project_root);
                                     ReadText (template project_root);
                                     WriteText (env_file project_root) data] |})) \/
  (files w !! env_file project_root = None /\
   files w !! template project_root = None /\
   ensure_env_file project_root w =
     Some (Raise (FileNotFoundError "env.example missing; cannot create .env for test"),
           log (PathExists (template project_root)) 0
             (log (PathExists (env_file project_root)) 0 w))).
Proof.
  destruct (files w !! env_file project_root) as [present|] eqn:He.
  - left. split; [eauto|]. apply ensure_env_file_present. rewrite He. eauto.
  - destruct (files w !! template project_root) as [data|] eqn:Ht.
    + right. left. split; [reflexivity|]. exists data. split; [reflexivity|].
      now apply ensure_env_file_copied.
    + right. right. split; [reflexivity|]. split; [reflexivity|].
      now apply ensure_env_file_missing.
Qed.

Lemma ensure_env_file_no_subprocess w r w1 :
  ensure_env_file project_root w = Some (r, w1) ->
  count is_subprocess (trace w1) = count is_subprocess (trace w).
Proof.
  intros H.
  destruct (ensure_env_file_cases w) as [(_ & E)|[(_ & data & _ & E)|(_ & _ & E)]];
    rewrite E in H; injection H as <- <-; simpl; rewrite ?count_app; simpl; lia.
Qed.

Lemma ensure_env_file_setup w :
  is_Some (files w !! env_file project_root) \/
  is_Some (files w !! template project_root) ->
  exists w1 setup,
    ensure_env_file project_root w = Some (Ok tt, w1) /\
    trace w1 = trace w ++ setup /\
    Forall (fun ev => is_poll ev = false) setup.
Proof.
  intros Hcfg.
  destruct (ensure_env_file_cases w) as [(_ & E)|[(_ & data & _ & E)|(He & Ht & _)]].
  - exists (log (PathExists (env_file project_root)) 0 w),
      [PathExists (env_file project_root)].
    split; [assumption|]. split; [reflexivity|]. repeat constructor.
  - eexists _, [PathExists (env_file project_root); PathExists (template project_root);
                ReadText (template project_root); WriteText (env_file project_root) data].
    split; [exact E|]. split; [reflexivity|]. repeat constructor.
  - destruct Hcfg as [[? Hc]|[? Hc]]; congruence.
Qed.

Lemma ensure_env_file_no_get w r w1 :
  ensure_env_file project_root w = Some (r, w1) ->
  count is_get (trace w1) = count is_get (trace w).
Proof.
  intros H.
  destruct (ensure_env_file_cases w) as [(_ & E)|[(_ & data & _ & E)|(_ & _ & E)]];
    rewrite E in H; injection H as <- <-; simpl; rewrite ?count_app; simpl; lia.
Qed.

(** What follows the first step, by the return codes of [docker build]
    and [docker run]. *)
Lemma after_setup_cases fuel w1 :
  (45 <= fuel)%nat ->
  let k := count is_subprocess (trace w1) in
  let built := (process_exit env k (build_cmd project_root)).1 in
  let started := (process_exit env (k + 2) (run_cmd project_root)).1 in
  let w2 := after_process env (build_cmd project_root) true w1 in
  let w4 := after_process env (run_cmd project_root) true
              (after_process env rm_cmd false w2) in
  exists r w',
    (run env (build_cmd project_root);;
     subprocess_run env rm_cmd false;;
     run env (run_cmd project_root);;
     try_finally (poll_endpoints env fuel) (teardown env)) w1 = Some (r, w') /\
    ((built <> 0 /\
      r = Raise (CalledProcessError built (build_cmd project_root)) /\ w' = w2) \/
     (built = 0 /\ started <> 0 /\
      r = Raise (CalledProcessError started (run_cmd project_root)) /\ w' = w4) \/
     (built = 0 /\ started = 0 /\
      exists w5,
        poll_endpoints env fuel w4 = Some (r, w5) /\
        w' = after_process env rmi_cmd false (after_process env rm_cmd false w5))).
Proof.
  intros Hfuel k built started w2 w4.
  destruct (decide (built = 0)) as [Hb|Hb].
  - rewrite (bind_ok _ _ _ _ _ (run_ok env _ w1 Hb)).
    rewrite (bind_ok _ _ _ _ _ (subprocess_unchecked env rm_cmd _)).
    assert (Hk : count is_subprocess
                   (trace (after_process env rm_cmd false
                             (after_process env (build_cmd project_root) true w1)))
                 = (k + 2)%nat)
      by (rewrite !after_process_count; unfold k; lia).
    destruct (decide (started = 0)) as [Hs|Hs].
    + assert (Hrun : run env (run_cmd project_root)
                       (after_process env rm_cmd false w2) = Some (Ok tt, w4))
        by (apply run_ok; unfold w2; now rewrite Hk).
      rewrite (bind_ok _ _ _ _ _ Hrun).
      destruct (poll_endpoints_outcome env fuel w4 Hfuel)
        as (r & w5 & _ & _ & H5 & _).
      exists r, (after_process env rmi_cmd false (after_process env rm_cmd false w5)).
      split; [apply (try_finally_ok _ _ _ _ _ _ H5 (teardown_eq env w5))|].
      right. right. eauto.
    + assert (Hrun : run env (run_cmd project_root)
                       (after_process env rm_cmd false w2)
                     = Some (Raise (CalledProcessError started (run_cmd project_root)), w4)).
      { unfold started. rewrite <- Hk. apply run_fail. unfold w2. now rewrite Hk. }
      rewrite (bind_raise _ _ _ _ _ Hrun). eexists _, _. split; [reflexivity|].
      right. left. auto.
  - rewrite (bind_raise _ _ _ _ _ (run_fail env _ w1 Hb)). eexists _, _.
    split; [reflexivity|]. left. auto.
Qed.

Lemma smoke_from_setup fuel w w1 :
  ensure_env_file project_root w = Some (Ok tt, w1) ->
  test_docker_container_smoke env project_root fuel w =
  (run env (build_cmd project_root);;
   subprocess_run env rm_cmd false;;
   run env (run_cmd project_root);;
   try_finally (poll_endpoints env fuel) (teardown env)) w1.
Proof. intros H. unfold test_docker_container_smoke. now rewrite (bind_ok _ _ _ _ _ H). Qed.



(** Once the first step has returned, the environment file exists, and
    taking the step again only checks that: no file is read or written. *)
Theorem ensure_env_file_idempotent w w1 :
  ensure_env_file project_root w = Some (Ok tt, w1) ->
  is_Some (files w1 !! env_file project_root) /\
  ensure_env_file project_root w1 =
    Some (Ok tt, log (PathExists (env_file project_root)) 0 w1).
Proof.
  intros H.
  assert (Hpresent : is_Some (files w1 !! env_file project_root)).
  { destruct (ensure_env_file_cases w) as [(Hp & E)|[(_ & data & _ & E)|(_ & _ & E)]];
      rewrite E in H; [| |discriminate]; injection H as <-; simpl.
    - assumption.
    - rewrite lookup_insert_eq. eauto. }
  split; [assumption | now apply ensure_env_file_present].
Qed.

(** A failed build ends the test at once: the [CalledProcessError] of
    [docker build] is raised and [docker build] is the only command run;
    no container is started and no request is made. *)
Theorem build_failure_aborts fuel w :
  (45 <= fuel)%nat ->
  is_Some (files w !! env_file project_root) \/
    is_Some (files w !! template project_root) ->
  (process_exit env (count is_subprocess (trace w)) (build_cmd project_root)).1 <> 0 ->
  exists w' setup,
    test_docker_container_smoke env project_root fuel w =
      Some (Raise (CalledProcessError
                     (process_exit env (count is_subprocess (trace w))
                        (build_cmd project_root)).1
                     (build_cmd project_root)), w') /\
    trace w' = trace w ++ setup ++ [Subprocess (build_cmd project_root) true] /\
    Forall (fun ev => is_subprocess ev = false) setup.
Proof.
  intros Hfuel Hcfg Hbuild.
  destruct (ensure_env_file_ready project_root w Hcfg) as (w1 & setup & H1 & Htr1 & Hsetup).
  pose proof (ensure_env_file_no_subprocess _ _ _ H1) as Hk.
  rewrite (smoke_from_setup fuel _ _ H1).
  destruct (after_setup_cases fuel w1 Hfuel) as (r & w' & H & Hcases).
  rewrite Hk in Hcases. rewrite H.
  destruct Hcases as [(_ & -> & ->)|[(Hb & _)|(Hb & _)]]; [|contradiction|contradiction].
  eexists _, setup. split; [reflexivity|]. split; [|assumption].
  rewrite after_process_trace, Htr1. now rewrite <- app_assoc.
Qed.

(** When [docker run] exits with a code other than 0, the test raises
    its [CalledProcessError] after the build, the pre-clean and the run
    itself, and the commands stop there: no request is made. *)
Theorem start_failure_skips_polling fuel w :
  (45 <= fuel)%nat ->
  is_Some (files w !! env_file project_root) \/
    is_Some (files w !! template project_root) ->
  (process_exit env (count is_subprocess (trace w)) (build_cmd project_root)).1 = 0 ->
  (process_exit env (count is_subprocess (trace w) + 2) (run_cmd project_root)).1 <> 0 ->
  exists w' setup,
    test_docker_container_smoke env project_root fuel w =
      Some (Raise (CalledProcessError
                     (process_exit env (count is_subprocess (trace w) + 2)
                        (run_cmd project_root)).1
                     (run_cmd project_root)), w') /\
    trace w' = trace w ++ setup
               ++ [Subprocess (build_cmd project_root) true;
                   Subprocess rm_cmd false;
                   Subprocess (run_cmd project_root) true] /\
    Forall (fun ev => is_subprocess ev = false) setup /\
    count is_get (trace w') = count is_get (trace w).
Proof.
  intros Hfuel Hcfg Hbuild Hrun.
  destruct (ensure_env_file_ready project_root w Hcfg) as (w1 & setup & H1 & Htr1 & Hsetup).
  pose proof (ensure_env_file_no_subprocess _ _ _ H1) as Hk.
  rewrite (smoke_from_setup fuel _ _ H1).
  destruct (after_setup_cases fuel w1 Hfuel) as (r & w' & H & Hcases).
  rewrite Hk in Hcases. rewrite H.
  destruct Hcases as [(Hb & _)|[(_ & _ & -> & ->)|(_ & Hs & _)]]; [contradiction| |contradiction].
  eexists _, setup. split; [reflexivity|].
  assert (Htr : trace (after_process env (run_cmd project_root) true
                  (after_process env rm_cmd false
                     (after_process env (build_cmd project_root) true w1)))
                = trace w ++ setup
                  ++ [Subprocess (build_cmd project_root) true;
                      Subprocess rm_cmd false;
                      Subprocess (run_cmd project_root) true])
    by (rewrite !after_process_trace, Htr1; now rewrite <- !app_assoc).
  split; [assumption|]. split; [assumption|].
  rewrite !after_process_trace, !count_app. simpl.
  rewrite (ensure_env_file_no_get _ _ _ H1). lia.
Qed.

(** If [/health] never answers below 500, the test raises the
    [TimeoutError] for the health URL after at most 45 requests to it,
    makes no request to [/docs], and still ends with the teardown. *)
Theorem health_timeout_skips_docs fuel w :
  (45 <= fuel)%nat ->
  is_Some (files w !! env_file project_root) \/
    is_Some (files w !! template project_root) ->
  (process_exit env (count is_subprocess (trace w)) (build_cmd project_root)).1 = 0 ->
  (process_exit env (count is_subprocess (trace w) + 2) (run_cmd project_root)).1 = 0 ->
  (forall k, is_failure (http_reply env k health_url).1) ->
  exists w' setup (n : nat) last_err,
    test_docker_container_smoke env project_root fuel w =
      Some (Raise (TimeoutError (timeout_message health_url last_err)), w') /\
    trace w' = trace w ++ setup
               ++ [Subprocess (build_cmd project_root) true;
                   Subprocess rm_cmd false;
                   Subprocess (run_cmd project_root) true]
               ++ rounds n health_url
               ++ [Subprocess rm_cmd false; Subprocess rmi_cmd false] /\
    Forall (fun ev => is_poll ev = false) setup /\
    (n <= 45)%nat.
Proof.
  intros Hfuel Hcfg Hbuild Hrun Hfail.
  destruct (ensure_env_file_setup w Hcfg) as (w1 & setup & H1 & Htr1 & Hsetup).
  pose proof (ensure_env_file_no_subprocess _ _ _ H1) as Hk.
  rewrite (smoke_from_setup fuel _ _ H1).
  destruct (after_setup_cases fuel w1 Hfuel) as (r & w' & H & Hcases).
  rewrite Hk in Hcases. rewrite H.
  destruct Hcases as [(Hb & _)|[(_ & Hs & _)|(_ & _ & w5 & H5 & ->)]];
    [contradiction|contradiction|].
  pose (w4 := after_process env (run_cmd project_root) true
                (after_process env rm_cmd false
                   (after_process env (build_cmd project_root) true w1))).
  fold w4 in H5.
  destruct (wait_for_all_fail env fuel health_url 90 w4) as (w6 & n & H6 & Htr6 & _ & Hn);
    [rewrite max_attempts_health; lia | assumption |].
  unfold poll_endpoints in H5. rewrite (bind_raise _ _ _ _ _ H6) in H5.
  injection H5 as <- <-. rewrite max_attempts_health in Hn.
  exists (after_process env rmi_cmd false (after_process env rm_cmd false w6)), setup, n,
    (last_raised (replies env health_url (count is_get (trace w4)) n)).
  split; [reflexivity|]. split; [|split; assumption].
  rewrite !after_process_trace, Htr6. unfold w4.
  rewrite !after_process_trace, Htr1.
  rewrite <- !app_assoc. reflexivity.
Qed.

End MoreSmoke.

(** ** Return codes that are not checked *)

Section UncheckedCodes.
Import Docker Observe.
Variables env env' : environment.
Variable project_root : string.

Lemma bind_cong {A B} (m m' : M A) (k k' : A -> M B) w :
  m w = m' w ->
  (forall a w1, m' w = Some (Ok a, w1) -> k a w1 = k' a w1) ->
  (m ≫= k) w = (m' ≫= k') w.
Proof.
  intros Hm Hk. unfold mbind, M_bind. rewrite Hm.
  destruct (m' w) as [[[a|e] w1]|]; [now apply Hk | reflexivity | reflexivity].
Qed.

Lemma bind_cong_ignore {A A' B} (m : M A) (m' : M A') (c c' : M B) w a a' w1 :
  m w = Some (Ok a, w1) -> m' w = Some (Ok a', w1) -> c w1 = c' w1 ->
  (m ≫= fun _ => c) w = (m' ≫= fun _ => c') w.
Proof. intros Hm Hm' Hc. unfold mbind, M_bind. now rewrite Hm, Hm'. Qed.

Lemma try_finally_cong {A} (body body' : M A) (handler handler' : M unit) w :
  body w = body' w ->
  (forall r w1, body' w = Some (r, w1) -> handler w1 = handler' w1) ->
  try_finally body handler w = try_finally body' handler' w.
Proof.
  intros Hb Hh. unfold try_finally. rewrite Hb.
  destruct (body' w) as [[r w1]|]; [|reflexivity]. now rewrite (Hh r w1).
Qed.

Hypothesis same_elapsed :
  forall j cmd, (process_exit env j cmd).2 = (process_exit env' j cmd).2.
Hypothesis same_replies : forall j url, http_reply env j url = http_reply env' j url.
Hypothesis same_oversleep : forall j, oversleep env j = oversleep env' j.

Lemma after_process_ext cmd check w :
  after_process env cmd check w = after_process env' cmd check w.
Proof. unfold after_process. now rewrite same_elapsed. Qed.

Lemma run_eq (e : environment) cmd w :
  run e cmd w =
  Some (if Z.eqb (process_exit e (count is_subprocess (trace w)) cmd).1 0
        then Ok tt
        else Raise (CalledProcessError
                      (process_exit e (count is_subprocess (trace w)) cmd).1 cmd),
        after_process e cmd true w).
Proof.
  unfold run, mbind, M_bind. rewrite subprocess_run_eq. simpl.
  now destruct (Z.eqb _ 0).
Qed.

Lemma run_ext cmd w :
  (process_exit env (count is_subprocess (trace w)) cmd).1
  = (process_exit env' (count is_subprocess (trace w)) cmd).1 ->
  run env cmd w = run env' cmd w.
Proof. intros H. now rewrite !run_eq, H, after_process_ext. Qed.

Lemma wait_loop_ext fuel : forall url deadline last_err w,
  wait_loop env fuel url deadline last_err w = wait_loop env' fuel url deadline last_err w.
Proof.
  induction fuel as [|fuel IH]; intros url deadline last_err w; [reflexivity|].
  simpl. destruct (bool_decide (clock w < deadline)); [|reflexivity].
  unfold requests_get, time_sleep. rewrite <- same_replies.
  destruct (http_reply env (count is_get (trace w)) url) as [[sc|err] elapsed].
  - destruct (bool_decide (sc < 500)); [reflexivity|].
    rewrite <- same_oversleep. apply IH.
  - rewrite <- same_oversleep. apply IH.
Qed.

Lemma poll_endpoints_ext fuel w : poll_endpoints env fuel w = poll_endpoints env' fuel w.
Proof.
  unfold poll_endpoints. apply bind_cong; [apply wait_loop_ext|].
  intros _ w1 _. apply wait_loop_ext.
Qed.

Lemma teardown_ext w : teardown env w = teardown env' w.
Proof. now rewrite !teardown_eq, !after_process_ext. Qed.

Lemma smoke_ext fuel w :
  (forall cmd, (process_exit env (count is_subprocess (trace w)) cmd).1
               = (process_exit env' (count is_subprocess (trace w)) cmd).1) ->
  (forall cmd, (process_exit env (count is_subprocess (trace w) + 2) cmd).1
               = (process_exit env' (count is_subprocess (trace w) + 2) cmd).1) ->
  test_docker_container_smoke env project_root fuel w =
  test_docker_container_smoke env' project_root fuel w.
Proof.
  intros Hbuild Hrun. unfold test_docker_container_smoke.
  apply bind_cong; [reflexivity|]. intros [] w1 E.
  pose proof (ensure_env_file_no_subprocess _ _ _ _ E) as Hk.
  apply bind_cong; [apply run_ext; rewrite Hk; apply Hbuild|]. intros [] w2 E2.
  rewrite run_eq in E2. injection E2 as _ <-.
  eapply bind_cong_ignore;
    [apply subprocess_unchecked
    |rewrite subprocess_unchecked, <- (after_process_ext rm_cmd false); reflexivity|].
  assert (Hk2 : count is_subprocess
                  (trace (after_process env rm_cmd false
                            (after_process env' (build_cmd project_root) true w1)))
                = (count is_subprocess (trace w) + 2)%nat)
    by (rewrite !after_process_count, Hk; lia).
  apply bind_cong; [apply run_ext; rewrite Hk2; apply Hrun|]. intros [] w4 _.
  apply try_finally_cong; [apply poll_endpoints_ext|]. intros r w5 _. apply teardown_ext.
Qed.

End UncheckedCodes.

Section UncheckedCodesTheorem.
Import Docker Observe.

(** The return codes of the pre-clean [docker rm -f] and of the two
    teardown commands never matter: two environments that differ in
    nothing but the return codes of subprocesses other than the build and
    the run give the test the same outcome and the same trace. *)
Theorem unchecked_exit_codes_ignored (env env' : environment) project_root fuel w :
  same_but_unchecked_codes env env' (count is_subprocess (trace w)) ->
  test_docker_container_smoke env project_root fuel w =
  test_docker_container_smoke env' project_root fuel w.
Proof.
  intros (Helapsed & Hbuild & Hrun & Hreplies & Hsleep).
  now apply smoke_ext.
Qed.

End UncheckedCodesTheorem.

(** ** Worked instances of the further properties *)

Section MoreInstances.
Import Auth Docker Observe Samples.

Lemma get_current_user_reads_only_dev_user_id_witness :
  ({[ "DEV_USER_ID" := "alice"; "HOME" := "/root" ]} : gmap string string) !! "DEV_USER_ID"
    = ({[ "DEV_USER_ID" := "alice" ]} : gmap string string) !! "DEV_USER_ID" /\
  get_current_user {[ "DEV_USER_ID" := "alice"; "HOME" := "/root" ]} None
    = get_current_user {[ "DEV_USER_ID" := "alice" ]} (Some "Bearer xyz").
Proof.
  assert (H : ({[ "DEV_USER_ID" := "alice"; "HOME" := "/root" ]} : gmap string string)
                !! "DEV_USER_ID"
              = ({[ "DEV_USER_ID" := "alice" ]} : gmap string string) !! "DEV_USER_ID")
    by (vm_compute; reflexivity).
  split; [exact H|].
  exact (get_current_user_reads_only_dev_user_id _ _ None (Some "Bearer xyz") H).
Defined.

Lemma wait_for_returns_only_on_response_witness :
  wait_for up_on_third 3 health_url 90 bare =
    Some (Ok tt,
          {| files := ∅; clock := 4032;
             trace := rounds 2 health_url ++ [HttpGet health_url 5] |}) /\
  exists (n : nat) status_code,
    (http_reply up_on_third (count is_get (trace bare) + n) health_url).1
      = Response status_code /\
    status_code < 500 /\
    Forall is_failure (replies up_on_third health_url (count is_get (trace bare)) n) /\
    trace {| files := ∅; clock := 4032;
             trace := rounds 2 health_url ++ [HttpGet health_url 5] |}
      = trace bare ++ rounds n health_url ++ [HttpGet health_url 5] /\
    clock bare + 2000 * Z.of_nat n < clock bare + 1000 * 90.
Proof.
  assert (H : wait_for up_on_third 3 health_url 90 bare =
              Some (Ok tt,
                    {| files := ∅; clock := 4032;
                       trace := rounds 2 health_url ++ [HttpGet health_url 5] |}))
    by (vm_compute; reflexivity).
  split; [exact H|].
  exact (wait_for_returns_only_on_response up_on_third 3 health_url 90 bare _ H).
Defined.

Lemma wait_for_silent_failures_report_none_witness :
  (max_attempts 90 <= 45)%nat /\
  (forall k : nat, exists status_code,
      (http_reply always_503 k health_url).1 = Response status_code /\ 500 <= status_code) /\
  exists w' (n : nat),
    wait_for always_503 45 health_url 90 bare =
      Some (Raise (TimeoutError
                     ("Timed out waiting for " ++ health_url ++ ". Last error: None")%string),
            w') /\
    trace w' = trace bare ++ rounds n health_url.
Proof.
  assert (H1 : (max_attempts 90 <= 45)%nat) by (vm_compute; lia).
  assert (H2 : forall k : nat, exists status_code,
             (http_reply always_503 k health_url).1 = Response status_code /\
             500 <= status_code)
    by (intros k; exists 503; split; [reflexivity|lia]).
  split; [exact H1|]. split; [exact H2|].
  exact (wait_for_silent_failures_report_none always_503 45 health_url 90 bare H1 H2).
Defined.

Lemma wait_for_positive_timeout_probes_witness :
  0 < 30 /\
  (max_attempts 30 <= 15)%nat /\
  exists r w' rest,
    wait_for always_503 15 docs_url 30 bare = Some (r, w') /\
    trace w' = trace bare ++ HttpGet docs_url 5 :: rest.
Proof.
  assert (H1 : 0 < 30) by lia.
  assert (H2 : (max_attempts 30 <= 15)%nat) by (vm_compute; lia).
  split; [exact H1|]. split; [exact H2|].
  exact (wait_for_positive_timeout_probes always_503 15 docs_url 30 bare H1 H2).
Defined.


Lemma ensure_env_file_idempotent_witness :
  ensure_env_file repo fresh =
    Some (Ok tt,
          {| files := <[env_file repo := "KEY="]> (files fresh);
             clock := 0;
             trace := [PathExists (env_file repo); PathExists (template repo);
                       ReadText (template repo); WriteText (env_file repo) "KEY="] |}) /\
  is_Some (files {| files := <[env_file repo := "KEY="]> (files fresh);
                    clock := 0;
                    trace := [PathExists (env_file repo); PathExists (template repo);
                              ReadText (template repo); WriteText (env_file repo) "KEY="] |}
             !! env_file repo) /\
  ensure_env_file repo
      {| files := <[env_file repo := "KEY="]> (files fresh);
         clock := 0;
         trace := [PathExists (env_file repo); PathExists (template repo);
                   ReadText (template repo); WriteText (env_file repo) "KEY="] |} =
    Some (Ok tt,
          log (PathExists (env_file repo)) 0
            {| files := <[env_file repo := "KEY="]> (files fresh);
               clock := 0;
               trace := [PathExists (env_file repo); PathExists (template repo);
                         ReadText (template repo); WriteText (env_file repo) "KEY="] |}).
Proof.
  assert (H : ensure_env_file repo fresh =
    Some (Ok tt,
          {| files := <[env_file repo := "KEY="]> (files fresh);
             clock := 0;
             trace := [PathExists (env_file repo); PathExists (template repo);
                       ReadText (template repo); WriteText (env_file repo) "KEY="] |}))
    by (vm_compute; reflexivity).
  split; [exact H|].
  exact (ensure_env_file_idempotent repo fresh _ H).
Defined.

Lemma build_failure_aborts_witness :
  (45 <= 45)%nat /\
  (is_Some (files configured !! env_file repo) \/
   is_Some (files configured !! template repo)) /\
  (process_exit build_fails (count is_subprocess (trace configured)) (build_cmd repo)).1 <> 0 /\
  exists w' setup,
    test_docker_container_smoke build_fails repo 45 configured =
      Some (Raise (CalledProcessError
                     (process_exit build_fails (count is_subprocess (trace configured))
                        (build_cmd repo)).1
                     (build_cmd repo)), w') /\
    trace w' = trace configured ++ setup ++ [Subprocess (build_cmd repo) true] /\
    Forall (fun ev => is_subprocess ev = false) setup.
Proof.
  assert (H1 : (45 <= 45)%nat) by lia.
  assert (H2 : is_Some (files configured !! env_file repo) \/
               is_Some (files configured !! template repo))
    by (left; vm_compute; eauto).
  assert (H3 : (process_exit build_fails (count is_subprocess (trace configured))
                  (build_cmd repo)).1 <> 0) by (simpl; lia).
  split; [exact H1|]. split; [exact H2|]. split; [exact H3|].
  exact (build_failure_aborts build_fails repo 45 configured H1 H2 H3).
Defined.

Lemma start_failure_skips_polling_witness :
  (45 <= 45)%nat /\
  (is_Some (files configured !! env_file repo) \/
   is_Some (files configured !! template repo)) /\
  (process_exit start_fails (count is_subprocess (trace configured)) (build_cmd repo)).1 = 0 /\
  (process_exit start_fails (count is_subprocess (trace configured) + 2) (run_cmd repo)).1
    <> 0 /\
  exists w' setup,
    test_docker_container_smoke start_fails repo 45 configured =
      Some (Raise (CalledProcessError
                     (process_exit start_fails (count is_subprocess (trace configured) + 2)
                        (run_cmd repo)).1
                     (run_cmd repo)), w') /\
    trace w' = trace configured ++ setup
               ++ [Subprocess (build_cmd repo) true;
                   Subprocess rm_cmd false;
                   Subprocess (run_cmd repo) true] /\
    Forall (fun ev => is_subprocess ev = false) setup /\
    count is_get (trace w') = count is_get (trace configured).
Proof.
  assert (H1 : (45 <= 45)%nat) by lia.
  assert (H2 : is_Some (files configured !! env_file repo) \/
               is_Some (files configured !! template repo))
    by (left; vm_compute; eauto).
  assert (H3 : (process_exit start_fails (count is_subprocess (trace configured))
                  (build_cmd repo)).1 = 0) by reflexivity.
  assert (H4 : (process_exit start_fails (count is_subprocess (trace configured) + 2)
                  (run_cmd repo)).1 <> 0) by (simpl; lia).
  split; [exact H1|]. split; [exact H2|]. split; [exact H3|]. split; [exact H4|].
  exact (start_failure_skips_polling start_fails repo 45 configured H1 H2 H3 H4).
Defined.

Lemma health_timeout_skips_docs_witness :
  (45 <= 45)%nat /\
  (is_Some (files configured !! env_file repo) \/
   is_Some (files configured !! template repo)) /\
  (process_exit unreachable (count is_subprocess (trace configured)) (build_cmd repo)).1 = 0 /\
  (process_exit unreachable (count is_subprocess (trace configured) + 2) (run_cmd repo)).1
    = 0 /\
  (forall k, is_failure (http_reply unreachable k health_url).1) /\
  exists w' setup (n : nat) last_err,
    test_docker_container_smoke unreachable repo 45 configured =
      Some (Raise (TimeoutError (timeout_message health_url last_err)), w') /\
    trace w' = trace configured ++ setup
               ++ [Subprocess (build_cmd repo) true;
                   Subprocess rm_cmd false;
                   Subprocess (run_cmd repo) true]
               ++ rounds n health_url
               ++ [Subprocess rm_cmd false; Subprocess rmi_cmd false] /\
    Forall (fun ev => is_poll ev = false) setup /\
    (n <= 45)%nat.
Proof.
  assert (H1 : (45 <= 45)%nat) by lia.
  assert (H2 : is_Some (files configured !! env_file repo) \/
               is_Some (files configured !! template repo))
    by (left; vm_compute; eauto).
  assert (H3 : (process_exit unreachable (count is_subprocess (trace configured))
                  (build_cmd repo)).1 = 0) by reflexivity.
  assert (H4 : (process_exit unreachable (count is_subprocess (trace configured) + 2)
                  (run_cmd repo)).1 = 0) by reflexivity.
  assert (H5 : forall k, is_failure (http_reply unreachable k health_url).1)
    by (intros k; exact I).
  split; [exact H1|]. split; [exact H2|]. split; [exact H3|]. split; [exact H4|].
  split; [exact H5|].
  exact (health_timeout_skips_docs unreachable repo 45 configured H1 H2 H3 H4 H5).
Defined.

Lemma unchecked_exit_codes_ignored_witness :
  same_but_unchecked_codes up_on_third cleanup_fails (count is_subprocess (trace fresh)) /\
  test_docker_container_smoke up_on_third repo 45 fresh =
  test_docker_container_smoke cleanup_fails repo 45 fresh.
Proof.
  assert (H : same_but_unchecked_codes up_on_third cleanup_fails
                (count is_subprocess (trace fresh)))
    by (repeat split; intros; reflexivity).
  split; [exact H|].
  exact (unchecked_exit_codes_ignored up_on_third cleanup_fails repo 45 fresh H).
Defined.

End MoreInstances.
